(** * w1-gpio: the GPIO 1-Wire bus master (drivers/w1/masters/w1-gpio.c)

  A shallow embedding of the driver's entry points
  ([w1_gpio_set_pullup], [w1_gpio_write_bit], [w1_gpio_read_bit],
  [w1_gpio_probe], [w1_gpio_remove]) over a small model of the kernel
  services they call (gpiolib consumer interface, devres allocation,
  the w1 core, msleep and printk), followed by the properties of the
  driver that its specification states. *)

From stdpp Require Import gmap strings list.
From Stdlib Require Import ZArith Lia.

Local Open Scope Z_scope.

(** ** C integer types used by the driver *)

Module CTypes.

Definition INT_MIN : Z := - 2 ^ 31.
Definition INT_MAX : Z := 2 ^ 31 - 1.

Definition is_int (z : Z) : Prop := INT_MIN <= z <= INT_MAX.

(** Conversion of an [int] to [unsigned int]: reduction modulo 2^32. *)
Definition to_uint (z : Z) : Z := z mod 2 ^ 32.

(** The C operator [!]: 1 on zero, 0 on everything else. *)
Definition lnot (z : Z) : Z := if z =? 0 then 1 else 0.

(** Truth value of a C scalar in a condition. *)
Definition truthy (z : Z) : bool := negb (z =? 0).

(** errno values returned (negated) by the probe path. *)
Definition ENOENT : Z := 2.
Definition ENXIO : Z := 6.
Definition ENOMEM : Z := 12.
Definition EBUSY : Z := 16.
Definition EINVAL : Z := 22.

End CTypes.
Export CTypes.

(** ** Kernel services the driver relies on *)

Module Kernel.

(** [enum gpiod_flags], restricted to the three values the driver uses. *)
Inductive gpiod_flags : Set :=
| GPIOD_IN
| GPIOD_OUT_LOW
| GPIOD_OUT_LOW_OPEN_DRAIN.

#[global] Instance gpiod_flags_eq_dec : EqDecision gpiod_flags.
Proof. solve_decision. Defined.

(** A [struct gpio_desc *] as the driver sees one: the null pointer, an
    [ERR_PTR] carrying a negative errno, or a descriptor of a line. *)
Inductive gpio_desc : Set :=
| NULL
| ERR_PTR (rc : Z)
| DESC (line : nat).

#[global] Instance gpio_desc_eq_dec : EqDecision gpio_desc.
Proof. solve_decision. Defined.

Definition IS_ERR (p : gpio_desc) : bool :=
  match p with ERR_PTR _ => true | _ => false end.

Definition PTR_ERR (p : gpio_desc) : Z :=
  match p with ERR_PTR rc => rc | _ => 0 end.

(** [if (p)] on a pointer. *)
Definition non_null (p : gpio_desc) : bool :=
  match p with NULL => false | _ => true end.

(** The callbacks a [struct w1_bus_master] can point to. *)
Inductive callback : Set :=
| fn_w1_gpio_read_bit
| fn_w1_gpio_write_bit
| fn_w1_gpio_set_pullup.

#[global] Instance callback_eq_dec : EqDecision callback.
Proof. solve_decision. Defined.

(** [struct w1_bus_master], the fields the driver fills in.  The [data]
    field is the address of the platform data and carries no value of
    its own here: the callbacks are handed the platform data itself. *)
Record w1_bus_master : Set := {
  read_bit : option callback;
  write_bit : option callback;
  set_pullup : option callback
}.

#[global] Instance w1_bus_master_eq_dec : EqDecision w1_bus_master.
Proof. solve_decision. Defined.

(** What the driver does to the outside world, in program order. *)
Inductive event : Set :=
| EvRequest (idx : nat) (line : nat) (flags : gpiod_flags)
| EvDirectionOutput (line : nat) (value : bool)
| EvSetValue (line : nat) (value : bool)
| EvMsleep (msecs : Z)
| EvLog (msg : string)
| EvAddMaster (m : w1_bus_master) (rc : Z)
| EvRemoveMaster (m : w1_bus_master).

#[global] Instance event_eq_dec : EqDecision event.
Proof. solve_decision. Defined.

(** The state of the machine around the driver. *)
Record world : Type := {
  line_flags : gmap nat gpiod_flags;  (* configuration of each requested line *)
  line_value : gmap nat bool;         (* logical level of each line *)
  allocs_left : nat;                  (* allocations that will still succeed *)
  add_master_rc : Z;                  (* what w1_add_master_device will return *)
  trace : list event                  (* actions so far, oldest first *)
}.

Definition emit (e : event) (w : world) : world :=
  {| line_flags := line_flags w; line_value := line_value w;
     allocs_left := allocs_left w; add_master_rc := add_master_rc w;
     trace := trace w ++ [e] |}.

Definition set_level (line : nat) (v : bool) (w : world) : world :=
  {| line_flags := line_flags w; line_value := <[line := v]> (line_value w);
     allocs_left := allocs_left w; add_master_rc := add_master_rc w;
     trace := trace w |}.

Definition set_flags (line : nat) (f : gpiod_flags) (w : world) : world :=
  {| line_flags := <[line := f]> (line_flags w); line_value := line_value w;
     allocs_left := allocs_left w; add_master_rc := add_master_rc w;
     trace := trace w |}.

Definition level (w : world) (line : nat) : bool :=
  default false (line_value w !! line).

(** *** A state monad with early return

    [Return rc] is a [return rc;] taken before the end of the
    function; the world built up to that point is kept. *)

Inductive outcome (A : Type) : Type :=
| Done (a : A)
| Return (rc : Z).
Arguments Done {A} a.
Arguments Return {A} rc.

Definition M (A : Type) : Type := world -> outcome A * world.

Definition ret {A} (a : A) : M A := fun w => (Done a, w).

Definition bind {A B} (m : M A) (k : A -> M B) : M B :=
  fun w =>
    match m w with
    | (Done a, w') => k a w'
    | (Return rc, w') => (Return rc, w')
    end.

Definition return_ {A} (rc : Z) : M A := fun w => (Return rc, w).

Definition act (f : world -> world) : M unit := fun w => (Done tt, f w).

Definition gets {A} (f : world -> A) : M A := fun w => (Done (f w), w).

End Kernel.
Export Kernel.

Declare Scope kernel_scope.
Delimit Scope kernel_scope with kernel.
Notation "x <- m ;; k" := (bind m (fun x => k))
  (at level 100, m at next level, right associativity) : kernel_scope.
Notation "m ;;; k" := (bind m (fun _ => k))
  (at level 100, right associativity) : kernel_scope.
Local Open Scope kernel_scope.

(** ** gpiolib, devres, the w1 core, msleep and printk *)

Module Services.

(** What the firmware description of a device assigns to a GPIO index. *)
Inductive gpio_lookup : Set :=
| Line (line : nat)          (* a line that can be requested *)
| Unavailable (rc : Z).      (* requesting it fails with this (negative) code *)

(** Modelled from the spec: gpiolib ([linux/gpio/consumer.h]) is not among
  the sources.  "Pin acquisition failure ... propagates the underlying
  acquisition error code" and "pin handles are exclusively owned": a
  line already requested answers [-EBUSY]; a free one is requested with
  the flags asked for, an output requested low starting out low.  The
  required getter answers an index nothing is assigned to with
  [-ENOENT]. *)
Definition devm_gpiod_get_index (gpios : gmap nat gpio_lookup) (idx : nat)
  (flags : gpiod_flags) : M gpio_desc :=
  match gpios !! idx with
  | None => ret (ERR_PTR (- ENOENT))
  | Some (Unavailable rc) => ret (ERR_PTR rc)
  | Some (Line l) =>
      held <- gets (fun w => line_flags w !! l) ;;
      match held with
      | Some _ => ret (ERR_PTR (- EBUSY))
      | None =>
          act (set_flags l flags) ;;;
          (match flags with
           | GPIOD_IN => ret tt
           | GPIOD_OUT_LOW | GPIOD_OUT_LOW_OPEN_DRAIN => act (set_level l false)
           end) ;;;
          act (emit (EvRequest idx l flags)) ;;;
          ret (DESC l)
      end
  end.

(** Modelled from the spec: the optional getter of gpiolib, not among the
    sources; it differs from [devm_gpiod_get_index] only in answering an
    index nothing is assigned to with the null pointer. *)
Definition devm_gpiod_get_index_optional (gpios : gmap nat gpio_lookup)
    (idx : nat) (flags : gpiod_flags) : M gpio_desc :=
  match gpios !! idx with
  | None => ret NULL
  | Some _ => devm_gpiod_get_index gpios idx flags
  end.

(** Modelled from the spec: [gpiod_set_value] of gpiolib, not among the
    sources; it drives the line to the logical value [value != 0] and
    does nothing on a pointer that is no descriptor. *)
Definition gpiod_set_value (desc : gpio_desc) (value : Z) : M unit :=
  match desc with
  | DESC l =>
      act (set_level l (truthy value)) ;;;
      act (emit (EvSetValue l (truthy value)))
  | _ => ret tt
  end.

(** Modelled from the spec: [gpiod_get_value] of gpiolib, not among the
    sources; the logical level of the line as 0 or 1, 0 on the null
    pointer and [-EINVAL] on an error pointer. *)
Definition gpiod_get_value (desc : gpio_desc) : M Z :=
  match desc with
  | DESC l => gets (fun w => if level w l then 1 else 0)
  | NULL => ret 0
  | ERR_PTR _ => ret (- EINVAL)
  end.

(** Modelled from the spec: [gpiod_direction_output] of gpiolib, not among
    the sources; it makes the line an output driven to [value != 0]. *)
Definition gpiod_direction_output (desc : gpio_desc) (value : Z) : M unit :=
  match desc with
  | DESC l =>
      act (set_level l (truthy value)) ;;;
      act (emit (EvDirectionOutput l (truthy value)))
  | _ => ret tt
  end.

(** [devm_kzalloc]: a zeroed object, or the null pointer once memory has
    run out. *)
Definition devm_kzalloc {A : Type} (zeroed : A) : M (option A) :=
  fun w =>
    match allocs_left w with
    | O => (Done None, w)
    | S n =>
        (Done (Some zeroed),
         {| line_flags := line_flags w; line_value := line_value w;
            allocs_left := n; add_master_rc := add_master_rc w;
            trace := trace w |})
    end.

Definition msleep (msecs : Z) : M unit := act (emit (EvMsleep msecs)).

Definition printk (msg : string) : M unit := act (emit (EvLog msg)).

Definition dev_err (msg : string) : M unit := act (emit (EvLog msg)).

(** The w1 core: registration answers with the code the core decides on. *)
Definition w1_add_master_device (m : w1_bus_master) : M Z :=
  rc <- gets add_master_rc ;;
  act (emit (EvAddMaster m rc)) ;;;
  ret rc.

Definition w1_remove_master_device (m : w1_bus_master) : M unit :=
  act (emit (EvRemoveMaster m)).

End Services.
Export Services.

(** ** The driver *)

Module W1Gpio.

(** Modelled from the spec: [struct w1_gpio_platform_data] is declared in
    [include/linux/w1-gpio.h], which is not among the sources.  The
    fields are the four the driver accesses; the duration is the spec's
    "mutable integer", held as a C [unsigned int] (what [msleep] takes). *)
Record w1_gpio_platform_data : Set := {
  gpiod : gpio_desc;
  strong_pullup_gpiod : gpio_desc;
  pulldown_gpiod : gpio_desc;
  strong_pullup_duration : Z
}.

#[global] Instance w1_gpio_platform_data_eq_dec : EqDecision w1_gpio_platform_data.
Proof. solve_decision. Defined.

Definition set_gpiod (d : gpio_desc) (p : w1_gpio_platform_data) :=
  {| gpiod := d; strong_pullup_gpiod := strong_pullup_gpiod p;
     pulldown_gpiod := pulldown_gpiod p;
     strong_pullup_duration := strong_pullup_duration p |}.

Definition set_strong_pullup_gpiod (d : gpio_desc) (p : w1_gpio_platform_data) :=
  {| gpiod := gpiod p; strong_pullup_gpiod := d;
     pulldown_gpiod := pulldown_gpiod p;
     strong_pullup_duration := strong_pullup_duration p |}.

Definition set_pulldown_gpiod (d : gpio_desc) (p : w1_gpio_platform_data) :=
  {| gpiod := gpiod p; strong_pullup_gpiod := strong_pullup_gpiod p;
     pulldown_gpiod := d;
     strong_pullup_duration := strong_pullup_duration p |}.

Definition set_strong_pullup_duration (d : Z) (p : w1_gpio_platform_data) :=
  {| gpiod := gpiod p; strong_pullup_gpiod := strong_pullup_gpiod p;
     pulldown_gpiod := pulldown_gpiod p;
     strong_pullup_duration := d |}.

(** What [devm_kzalloc] hands out. *)
Definition zeroed_pdata : w1_gpio_platform_data :=
  {| gpiod := NULL; strong_pullup_gpiod := NULL; pulldown_gpiod := NULL;
     strong_pullup_duration := 0 |}.

Definition zeroed_master : w1_bus_master :=
  {| read_bit := None; write_bit := None; set_pullup := None |}.

(** [struct platform_device], as far as the probe looks at it. *)
Record platform_device : Type := {
  of_have_populated_dt : bool;                     (* a device tree is in use *)
  of_node_props : gset string;                     (* properties of dev->of_node *)
  platform_data : option w1_gpio_platform_data;    (* dev.platform_data on entry *)
  gpios : gmap nat gpio_lookup                     (* GPIOs assigned, by index *)
}.

Definition of_get_property (pdev : platform_device) (name : string) : bool :=
  bool_decide (name ∈ of_node_props pdev).

(** [static u8 w1_gpio_set_pullup(void *data, int delay)]: the status
    returned, together with the platform data as the call leaves it. *)
Definition w1_gpio_set_pullup (pdata : w1_gpio_platform_data) (delay : Z)
    : M (Z * w1_gpio_platform_data) :=
  if truthy delay then
    ret (0, set_strong_pullup_duration (to_uint delay) pdata)
  else
    (if truthy (strong_pullup_duration pdata) then
       if non_null (strong_pullup_gpiod pdata) then
         gpiod_set_value (strong_pullup_gpiod pdata) 1 ;;;
         msleep (strong_pullup_duration pdata) ;;;
         gpiod_set_value (strong_pullup_gpiod pdata) 0
       else
         printk "W1-GPIO: strong pull up requested, but not available"
     else ret tt) ;;;
    ret (0, set_strong_pullup_duration 0 pdata).

(** [static void w1_gpio_write_bit(void *data, u8 bit)] *)
Definition w1_gpio_write_bit (pdata : w1_gpio_platform_data) (bit : Z) : M unit :=
  if non_null (pulldown_gpiod pdata) then
    gpiod_set_value (pulldown_gpiod pdata) (lnot bit)
  else
    gpiod_set_value (gpiod pdata) bit.

(** [static u8 w1_gpio_read_bit(void *data)] *)
Definition w1_gpio_read_bit (pdata : w1_gpio_platform_data) : M Z :=
  v <- gpiod_get_value (gpiod pdata) ;;
  ret (if truthy v then 1 else 0).

(** The last part of [w1_gpio_probe], from the point where the three
    lines have been acquired (the statements after the last [IS_ERR]
    check): the initial drive of the data line, the filling in of the
    master and its registration. *)
Definition w1_gpio_probe_register (gflags : gpiod_flags)
    (pdata : w1_gpio_platform_data) (master : w1_bus_master)
    : M (w1_gpio_platform_data * w1_bus_master) :=
  (if negb (non_null (pulldown_gpiod pdata))
   then gpiod_direction_output (gpiod pdata) 1 else ret tt) ;;;
  let master :=
    {| read_bit := Some fn_w1_gpio_read_bit;
       write_bit := Some fn_w1_gpio_write_bit;
       set_pullup := set_pullup master |} in
  let master :=
    if bool_decide (gflags = GPIOD_OUT_LOW_OPEN_DRAIN)
       || non_null (strong_pullup_gpiod pdata)
    then {| read_bit := read_bit master; write_bit := write_bit master;
            set_pullup := Some fn_w1_gpio_set_pullup |}
    else master in
  err <- w1_add_master_device master ;;
  if truthy err then
    dev_err "w1_add_master device failed\n" ;;; return_ err
  else
  ret (pdata, master).

(** [static int w1_gpio_probe(struct platform_device *pdev)].  [Done]
    carries what a successful probe leaves behind (the platform data and
    the driver data, i.e. the registered master) and stands for
    [return 0]. *)
Definition w1_gpio_probe (pdev : platform_device)
    : M (w1_gpio_platform_data * w1_bus_master) :=
  (* Enforce open drain mode by default *)
  let gflags := GPIOD_OUT_LOW_OPEN_DRAIN in
  cfg <- (if of_have_populated_dt pdev then
            p <- devm_kzalloc zeroed_pdata ;;
            match p with
            | None => return_ (- ENOMEM)
            | Some pdata =>
                ret (if of_get_property pdev "linux,open-drain"
                     then GPIOD_OUT_LOW else gflags,
                     Some pdata)
            end
          else ret (gflags, platform_data pdev)) ;;
  let gflags := fst cfg in
  match snd cfg with
  | None => dev_err "No configuration data\n" ;;; return_ (- ENXIO)
  | Some pdata =>
  m <- devm_kzalloc zeroed_master ;;
  match m with
  | None => dev_err "Out of memory\n" ;;; return_ (- ENOMEM)
  | Some master =>
  pd <- devm_gpiod_get_index_optional (gpios pdev) 2 GPIOD_OUT_LOW ;;
  let pdata := set_pulldown_gpiod pd pdata in
  if IS_ERR (pulldown_gpiod pdata) then
    dev_err "gpio_request (pull down pin) failed\n" ;;;
    return_ (PTR_ERR (pulldown_gpiod pdata))
  else
  (* if we have a pulldown pin, the data pin is only used as an input *)
  let gflags := if non_null (pulldown_gpiod pdata) then GPIOD_IN else gflags in
  d <- devm_gpiod_get_index (gpios pdev) 0 gflags ;;
  let pdata := set_gpiod d pdata in
  if IS_ERR (gpiod pdata) then
    dev_err "gpio_request (data pin) failed\n" ;;;
    return_ (PTR_ERR (gpiod pdata))
  else
  sp <- devm_gpiod_get_index (gpios pdev) 1 GPIOD_OUT_LOW ;;
  let pdata := set_strong_pullup_gpiod sp pdata in
  if IS_ERR (strong_pullup_gpiod pdata) then
    dev_err "gpio_request (strong pull up pin) failed\n" ;;;
    return_ (PTR_ERR (strong_pullup_gpiod pdata))
  else
  w1_gpio_probe_register gflags pdata master
  end end.

(** The [int] a probe returns. *)
Definition probe_rc {A} (o : outcome A) : Z :=
  match o with Done _ => 0 | Return rc => rc end.

(** [static int w1_gpio_remove(struct platform_device *pdev)], given the
    driver data and platform data the probe left on the device. *)
Definition w1_gpio_remove (master : w1_bus_master)
    (pdata : w1_gpio_platform_data) : M Z :=
  (if non_null (strong_pullup_gpiod pdata)
   then gpiod_set_value (strong_pullup_gpiod pdata) 0 else ret tt) ;;;
  w1_remove_master_device master ;;;
  ret 0.

End W1Gpio.
Export W1Gpio.

(** ** The driver as the w1 core and the driver core use it *)

Module Bus.

(** A call through one of the three function pointers of the registered
    master, with [master->data] as first argument. *)
Inductive w1_call : Set :=
| call_read_bit
| call_write_bit (bit : Z)
| call_set_pullup (delay : Z).

(** One call: its result (0 for the [void] write) and the platform data
    as the call leaves it.  [w1_gpio_read_bit] and [w1_gpio_write_bit]
    contain no assignment through [pdata], so the structure they were
    given is the one that remains. *)
Definition invoke (c : w1_call) (pdata : w1_gpio_platform_data)
  : M (Z * w1_gpio_platform_data) :=
  match c with
  | call_read_bit => r <- w1_gpio_read_bit pdata ;; ret (r, pdata)
  | call_write_bit bit => w1_gpio_write_bit pdata bit ;;; ret (0, pdata)
  | call_set_pullup delay => w1_gpio_set_pullup pdata delay
  end.

(** A sequence of calls, one after the other; the results in call order. *)
Fixpoint run_calls (cs : list w1_call) (pdata : w1_gpio_platform_data)
  : M (list Z * w1_gpio_platform_data) :=
  match cs with
  | [] => ret ([], pdata)
  | c :: cs' =>
      r <- invoke c pdata ;;
      rs <- run_calls cs' (snd r) ;;
      ret (fst r :: fst rs, snd rs)
  end.

(** Reads and writes of bits, as opposed to pull-up requests. *)
Definition is_bit_io (c : w1_call) : bool :=
  match c with call_set_pullup _ => false | _ => true end.

(** The descriptor [w1_gpio_write_bit] passes to [gpiod_set_value]. *)
Definition drive_line (pdata : w1_gpio_platform_data) : gpio_desc :=
  if non_null (pulldown_gpiod pdata) then pulldown_gpiod pdata else gpiod pdata.

(** An event that sets the value of the line behind [desc]. *)
Definition sets_value_of (desc : gpio_desc) (e : event) : Prop :=
  exists l v, desc = DESC l /\ e = EvSetValue l v.

(** The flag the specification calls "externally open-drain": the
    [linux,open-drain] property, looked at only under a device tree. *)
Definition external_open_drain (pdev : platform_device) : bool :=
  of_have_populated_dt pdev && of_get_property pdev "linux,open-drain".

(** A world for the examples: nothing requested yet, memory for two
    allocations, a w1 core that accepts the master. *)
Definition boot : world :=
  {| line_flags := ∅; line_value := ∅; allocs_left := 2%nat;
     add_master_rc := 0; trace := [] |}.

(** Platform data of an attached device with all three lines. *)
Definition pdata_3lines : w1_gpio_platform_data :=
  {| gpiod := DESC 10; strong_pullup_gpiod := DESC 11;
     pulldown_gpiod := DESC 12; strong_pullup_duration := 0 |}.

(** Platform data with a data line and a strong pull-up line. *)
Definition pdata_2lines : w1_gpio_platform_data :=
  {| gpiod := DESC 10; strong_pullup_gpiod := DESC 11;
     pulldown_gpiod := NULL; strong_pullup_duration := 0 |}.

(** Platform data with the data line alone. *)
Definition pdata_1line : w1_gpio_platform_data :=
  {| gpiod := DESC 10; strong_pullup_gpiod := NULL;
     pulldown_gpiod := NULL; strong_pullup_duration := 0 |}.

(** Device-tree nodes, by the GPIO indices they assign, with or without
    the [linux,open-drain] property. *)
Definition dt_node (props : gset string) (lines : gmap nat gpio_lookup)
  : platform_device :=
  {| of_have_populated_dt := true; of_node_props := props;
     platform_data := None; gpios := lines |}.

Definition dev_3lines : platform_device :=
  dt_node ∅ (<[0%nat := Line 10]> (<[1%nat := Line 11]> (<[2%nat := Line 12]> ∅))).

Definition dev_data_strong : platform_device :=
  dt_node ∅ (<[0%nat := Line 10]> (<[1%nat := Line 11]> ∅)).

Definition dev_data_strong_od : platform_device :=
  dt_node {["linux,open-drain"]} (<[0%nat := Line 10]> (<[1%nat := Line 11]> ∅)).

Definition dev_data_only : platform_device :=
  dt_node ∅ (<[0%nat := Line 10]> ∅).

Definition dev_data_od : platform_device :=
  dt_node {["linux,open-drain"]} (<[0%nat := Line 10]> ∅).

Definition dev_data_pulldown : platform_device :=
  dt_node ∅ (<[0%nat := Line 10]> (<[2%nat := Line 12]> ∅)).

End Bus.
Export Bus.

(** ** The old 32-bit time interface (include/linux/timekeeping32.h) *)

Module Timekeeping32.

(** Conversion to [s32]: the value modulo 2^32 in the signed range. *)
Definition wrap_s32 (z : Z) : Z := (z + 2 ^ 31) mod 2 ^ 32 - 2 ^ 31.

(** Modelled from the spec: [NSEC_PER_SEC] is defined outside the sources
    ([linux/time64.h]); nanoseconds in a second. *)
Definition NSEC_PER_SEC : Z := 1000000000.

(** Modelled from the spec: [struct old_timespec32], which the header's
    [#define timespec old_timespec32] makes of [struct timespec], is
    declared outside the sources ([linux/time32.h]); both fields are
    [s32]. *)
Record timespec : Set := { tv_sec : Z; tv_nsec : Z }.

(** Modelled from the spec: [div_s64_rem] is defined outside the sources
    ([linux/math64.h]); C division of an [s64] by an [s32], truncating
    towards zero, the remainder stored through an [s32] pointer. *)
Definition div_s64_rem (dividend divisor : Z) : Z * Z :=
  (Z.quot dividend divisor, wrap_s32 (Z.rem dividend divisor)).

(** [static inline struct timespec ns_to_timespec(const s64 nsec)], which
    [ktime_to_timespec] is a macro for. *)
Definition ns_to_timespec (nsec : Z) : timespec :=
  if negb (truthy nsec) then {| tv_sec := 0; tv_nsec := 0 |}
  else
    let qr := div_s64_rem nsec NSEC_PER_SEC in
    let sec := wrap_s32 (fst qr) in
    let rem := snd qr in
    if rem <? 0 then
      {| tv_sec := wrap_s32 (sec - 1); tv_nsec := wrap_s32 (rem + NSEC_PER_SEC) |}
    else
      {| tv_sec := sec; tv_nsec := rem |}.

(** The order of points in time on normalised time specifications. *)
Definition timespec_le (a b : timespec) : Prop :=
  tv_sec a < tv_sec b \/ (tv_sec a = tv_sec b /\ tv_nsec a <= tv_nsec b).

(** The nanoseconds a time specification stands for. *)
Definition timespec_ns (ts : timespec) : Z :=
  tv_sec ts * NSEC_PER_SEC + tv_nsec ts.

End Timekeeping32.
Export Timekeeping32.

(** ** Vocabulary for the properties of probe and of call sequences *)

Module Accounting.

(** The probe gets as far as the GPIO requests: under a device tree both
    allocations succeed; without one, platform data is supplied and the
    one allocation succeeds. *)
Definition probe_has_config (pdev : platform_device) (w : world) : Prop :=
  if of_have_populated_dt pdev then (2 <= allocs_left w)%nat
  else platform_data pdev <> None /\ (1 <= allocs_left w)%nat.

(** Every line the probe asks for can be had: indices 0 and 1 are
    assigned to two different free lines, and index 2 is assigned to
    nothing or to a third free line. *)
Definition lines_available (pdev : platform_device) (w : world) : Prop :=
  exists d s,
    gpios pdev !! 0%nat = Some (Line d) /\ gpios pdev !! 1%nat = Some (Line s)
    /\ line_flags w !! d = None /\ line_flags w !! s = None /\ d <> s
    /\ match gpios pdev !! 2%nat with
       | None => True
       | Some (Line p) => line_flags w !! p = None /\ p <> d /\ p <> s
       | Some (Unavailable _) => False
       end.

(** Index 2 does not stop the probe: nothing assigned, or a free line. *)
Definition pulldown_obtainable (pdev : platform_device) (w : world) : Prop :=
  match gpios pdev !! 2%nat with
  | None => True
  | Some (Line p) => line_flags w !! p = None
  | Some (Unavailable _) => False
  end.

Definition is_msleep (e : event) : bool :=
  match e with EvMsleep _ => true | _ => false end.

(** A pull-up request that arms, and one that fires. *)
Definition is_arm (c : w1_call) : bool :=
  match c with call_set_pullup delay => truthy delay | _ => false end.

Definition is_fire (c : w1_call) : bool :=
  match c with call_set_pullup delay => negb (truthy delay) | _ => false end.

(** How many of the events are sleeps, how many of the calls arm a
    pull-up, and how many fire one. *)
Definition sleeps (evs : list event) : nat := length (List.filter is_msleep evs).
Definition arms (cs : list w1_call) : nat := length (List.filter is_arm cs).
Definition fires (cs : list w1_call) : nat := length (List.filter is_fire cs).

(** 1 when a duration is pending in the platform data, 0 otherwise. *)
Definition pending (pdata : w1_gpio_platform_data) : nat :=
  if truthy (strong_pullup_duration pdata) then 1%nat else 0%nat.

(** The events a call through the master can produce. *)
Definition call_event (pdata : w1_gpio_platform_data) (e : event) : Prop :=
  sets_value_of (drive_line pdata) e
  \/ sets_value_of (strong_pullup_gpiod pdata) e
  \/ (exists msecs, e = EvMsleep msecs)
  \/ e = EvLog "W1-GPIO: strong pull up requested, but not available".

(** Further devices for the examples: a node whose data line cannot be
    had, and boards without a device tree, without and with platform
    data (the latter with a duration left in it). *)
Definition dev_data_unavailable : platform_device :=
  dt_node ∅ (<[0%nat := Unavailable (- EBUSY)]> (<[1%nat := Line 11]> ∅)).

Definition board_no_platdata : platform_device :=
  {| of_have_populated_dt := false; of_node_props := ∅;
     platform_data := None; gpios := gpios dev_3lines |}.

Definition board_stale_duration : platform_device :=
  {| of_have_populated_dt := false; of_node_props := {["linux,open-drain"]};
     platform_data := Some (set_strong_pullup_duration 150 zeroed_pdata);
     gpios := gpios dev_data_strong |}.

End Accounting.
Export Accounting.

(** Unfolds the monad and the kernel services down to functions on worlds. *)
Ltac unfold_services :=
  unfold gpiod_set_value, gpiod_get_value, gpiod_direction_output,
    msleep, printk, dev_err, w1_add_master_device, w1_remove_master_device.
Ltac unfold_monad := unfold bind, ret, return_, act, gets.
Ltac run := unfold_services; unfold_monad; simpl.

(** ** Facts about the C scalars *)

Lemma truthy_nonzero (z : Z) : z <> 0 -> truthy z = true.
Proof. intros H. unfold truthy. destruct (Z.eqb_spec z 0); [contradiction | reflexivity]. Qed.

Lemma truthy_b2z (b : bool) : truthy (Z.b2z b) = b.
Proof. destruct b; reflexivity. Qed.

Lemma truthy_lnot (z : Z) : truthy (lnot z) = negb (truthy z).
Proof. unfold truthy, lnot. destruct (z =? 0); reflexivity. Qed.

Lemma to_uint_pos (z : Z) : 0 < z <= INT_MAX -> to_uint z = z.
Proof.
  unfold to_uint, INT_MAX. intros H. apply Z.mod_small. lia.
Qed.

Lemma to_uint_nonzero (z : Z) : is_int z -> z <> 0 -> to_uint z <> 0.
Proof.
  unfold is_int, INT_MIN, INT_MAX, to_uint. intros Hr Hz.
  destruct (Z_lt_le_dec z 0) as [Hneg | Hpos].
  - replace z with (z + 2 ^ 32 + (-1) * 2 ^ 32) by lia.
    rewrite Z_mod_plus_full, Z.mod_small; lia.
  - rewrite Z.mod_small; lia.
Qed.

(** ** Facts about the world *)

Lemma level_set_level_eq (l : nat) (v : bool) (w : world) :
  level (set_level l v w) l = v.
Proof. unfold level, set_level. simpl. by rewrite lookup_insert_eq. Qed.

Lemma level_set_level_ne (l l' : nat) (v : bool) (w : world) :
  l <> l' -> level (set_level l v w) l' = level w l'.
Proof. intros H. unfold level, set_level. simpl. by rewrite lookup_insert_ne. Qed.

Lemma level_emit (e : event) (w : world) (l : nat) : level (emit e w) l = level w l.
Proof. reflexivity. Qed.

(** ** set_pullup *)

(** What a zero-delay call does when a duration is pending and the
    strong pull-up line is there. *)
Lemma set_pullup_fire (pdata : w1_gpio_platform_data) (l : nat) (w : world) :
  strong_pullup_duration pdata <> 0 ->
  strong_pullup_gpiod pdata = DESC l ->
  w1_gpio_set_pullup pdata 0 w =
    (Done (0, set_strong_pullup_duration 0 pdata),
     emit (EvSetValue l false) (set_level l false
       (emit (EvMsleep (strong_pullup_duration pdata))
         (emit (EvSetValue l true) (set_level l true w))))).
Proof.
  intros Hd Hl. unfold w1_gpio_set_pullup. simpl.
  rewrite (truthy_nonzero _ Hd), Hl. reflexivity.
Qed.

(** A non-zero delay only writes the duration field. *)
Lemma set_pullup_arm (pdata : w1_gpio_platform_data) (delay : Z) (w : world) :
  delay <> 0 ->
  w1_gpio_set_pullup pdata delay w =
    (Done (0, set_strong_pullup_duration (to_uint delay) pdata), w).
Proof.
  intros Hd. unfold w1_gpio_set_pullup. rewrite (truthy_nonzero _ Hd). reflexivity.
Qed.

(** A zero-delay call with nothing pending changes nothing. *)
Lemma set_pullup_idle (pdata : w1_gpio_platform_data) (w : world) :
  strong_pullup_duration pdata = 0 ->
  w1_gpio_set_pullup pdata 0 w = (Done (0, pdata), w).
Proof.
  intros Hd. unfold w1_gpio_set_pullup. simpl. rewrite Hd. simpl.
  destruct pdata; simpl in *; subst; reflexivity.
Qed.

(** C1: a call of set_pullup with a non-zero delay (an [int]) stores that
    delay in the duration field (as the [unsigned int] it is held in: the
    delay itself when it is positive, and never zero) and leaves the world
    as it was, so no GPIO is touched; a later set_pullup(0) on platform
    data with a pending duration and a strong pull-up line [l] sets [l]
    active, sleeps for the stored duration, sets [l] inactive, in that
    order and nothing else, leaving [l] inactive. *)
Theorem set_pullup_arms_then_pulses
    (pdata : w1_gpio_platform_data) (delay : Z) (w : world) :
  is_int delay -> delay <> 0 ->
  let armed := set_strong_pullup_duration (to_uint delay) pdata in
  w1_gpio_set_pullup pdata delay w = (Done (0, armed), w)
  /\ strong_pullup_duration armed <> 0
  /\ (0 < delay -> strong_pullup_duration armed = delay)
  /\ (forall (l : nat) (w1 : world),
        strong_pullup_gpiod pdata = DESC l ->
        exists w2,
          w1_gpio_set_pullup armed 0 w1
            = (Done (0, set_strong_pullup_duration 0 armed), w2)
          /\ trace w2 = trace w1 ++
               [EvSetValue l true; EvMsleep (strong_pullup_duration armed);
                EvSetValue l false]
          /\ level w2 l = false
          /\ (forall l', l' <> l -> level w2 l' = level w1 l')
          /\ line_flags w2 = line_flags w1).
Proof.
  intros Hint Hnz armed.
  assert (Harmed : strong_pullup_duration armed <> 0)
    by (apply to_uint_nonzero; assumption).
  split; [apply set_pullup_arm; assumption |].
  split; [assumption |].
  split.
  - intros Hpos. apply to_uint_pos. unfold is_int in Hint. lia.
  - intros l w1 Hl. eexists. split.
    + apply set_pullup_fire; [assumption | exact Hl].
    + simpl. rewrite <- !app_assoc. simpl.
      split; [reflexivity |]. split.
      * unfold level. simpl. by rewrite lookup_insert_eq.
      * split; [| reflexivity].
        intros l' Hne. unfold level. simpl.
        by rewrite !lookup_insert_ne.
Qed.

Lemma set_pullup_arms_then_pulses_witness :
  is_int 200 /\ 200 <> 0 /\
  w1_gpio_set_pullup pdata_2lines 200 boot
    = (Done (0, set_strong_pullup_duration 200 pdata_2lines), boot) /\
  exists w2,
    w1_gpio_set_pullup (set_strong_pullup_duration 200 pdata_2lines) 0 boot
      = (Done (0, pdata_2lines), w2)
    /\ trace w2 = [EvSetValue 11 true; EvMsleep 200; EvSetValue 11 false].
Proof.
  assert (Hi : is_int 200) by (unfold is_int, INT_MIN, INT_MAX; lia).
  assert (Hn : 200 <> 0) by lia.
  destruct (set_pullup_arms_then_pulses pdata_2lines 200 boot Hi Hn)
    as (Harm & _ & _ & Hfire).
  split; [exact Hi |]. split; [exact Hn |]. split; [exact Harm |].
  destruct (Hfire 11%nat boot eq_refl) as (w2 & Hrun & Htr & _).
  exists w2. split; [exact Hrun | exact Htr].
Defined.

(** C2: whatever the platform data and the pending duration, and whether
    or not a strong pull-up line is there, a set_pullup(0) leaves the
    duration at zero; a second set_pullup(0) right after it returns at
    once: the world (line levels and trace alike) is the one the first
    call left, so the duration is not applied a second time. *)
Theorem set_pullup_zero_consumes (pdata : w1_gpio_platform_data) (w : world) :
  exists pdata1 w1,
    w1_gpio_set_pullup pdata 0 w = (Done (0, pdata1), w1)
    /\ strong_pullup_duration pdata1 = 0
    /\ w1_gpio_set_pullup pdata1 0 w1 = (Done (0, pdata1), w1).
Proof.
  exists (set_strong_pullup_duration 0 pdata).
  unfold w1_gpio_set_pullup at 1. run.
  destruct (truthy (strong_pullup_duration pdata)),
    (strong_pullup_gpiod pdata); simpl;
    eexists; (split; [reflexivity |]);
    (split; [reflexivity | apply set_pullup_idle; reflexivity]).
Qed.

(** C8: set_pullup returns 0 on every call; with a duration pending and
    no strong pull-up line, set_pullup(0) returns 0, clears the duration
    and changes the world by one log entry only: no line is driven, and
    there is no sleep. *)
Theorem set_pullup_always_succeeds
    (pdata : w1_gpio_platform_data) (delay : Z) (w : world) :
  (exists pdata' w', w1_gpio_set_pullup pdata delay w = (Done (0, pdata'), w'))
  /\ (strong_pullup_duration pdata <> 0 ->
      strong_pullup_gpiod pdata = NULL ->
      w1_gpio_set_pullup pdata 0 w =
        (Done (0, set_strong_pullup_duration 0 pdata),
         emit (EvLog "W1-GPIO: strong pull up requested, but not available") w)).
Proof.
  split.
  - unfold w1_gpio_set_pullup. run.
    destruct (truthy delay); [eauto |].
    destruct (truthy (strong_pullup_duration pdata)),
      (strong_pullup_gpiod pdata); simpl; eauto.
  - intros Hd Hl. unfold w1_gpio_set_pullup. simpl.
    rewrite (truthy_nonzero _ Hd), Hl. reflexivity.
Qed.

Lemma set_pullup_always_succeeds_witness :
  strong_pullup_duration (set_strong_pullup_duration 200 pdata_1line) <> 0 /\
  strong_pullup_gpiod (set_strong_pullup_duration 200 pdata_1line) = NULL /\
  w1_gpio_set_pullup (set_strong_pullup_duration 200 pdata_1line) 0 boot =
    (Done (0, pdata_1line),
     emit (EvLog "W1-GPIO: strong pull up requested, but not available") boot).
Proof.
  assert (Hd : strong_pullup_duration
                 (set_strong_pullup_duration 200 pdata_1line) <> 0)
    by (simpl; lia).
  split; [exact Hd |]. split; [reflexivity |].
  exact (proj2 (set_pullup_always_succeeds
                  (set_strong_pullup_duration 200 pdata_1line) 0 boot)
               Hd eq_refl).
Defined.

(** ** write_bit and read_bit *)

(** The value [w1_gpio_write_bit] hands to [gpiod_set_value]. *)
Lemma write_bit_world (pdata : w1_gpio_platform_data) (bit : Z) (w : world) :
  w1_gpio_write_bit pdata bit w =
    (Done tt,
     match drive_line pdata with
     | DESC l =>
         let v := if non_null (pulldown_gpiod pdata)
                  then negb (truthy bit) else truthy bit in
         emit (EvSetValue l v) (set_level l v w)
     | _ => w
     end).
Proof.
  unfold w1_gpio_write_bit, drive_line.
  destruct (pulldown_gpiod pdata) as [| rc | p]; simpl.
  - destruct (gpiod pdata); reflexivity.
  - reflexivity.
  - run. by rewrite truthy_lnot.
Qed.

Lemma read_bit_world (pdata : w1_gpio_platform_data) (w : world) :
  exists r, w1_gpio_read_bit pdata w = (Done r, w) /\ (r = 0 \/ r = 1).
Proof.
  unfold w1_gpio_read_bit. run.
  destruct (gpiod pdata) as [| rc | d]; simpl; [eauto | eauto |].
  destruct (level w d); simpl; eauto.
Qed.

(** C5: with a pull-down line [p] configured, write_bit(bit) sets [p] to
    the logical inverse of the bit and that is the only thing it does
    (one set-value event on [p], every other line as before, so the data
    line is not driven); with no pull-down line, write_bit(bit) sets the
    data line [d] to the bit, and that only.  For the bit values 0 and 1
    the level of the driven line is [1 - bit], respectively [bit]. *)
Theorem write_bit_drives (pdata : w1_gpio_platform_data) (bit : Z) (w : world) :
  (forall p, pulldown_gpiod pdata = DESC p ->
     exists w', w1_gpio_write_bit pdata bit w = (Done tt, w')
       /\ level w' p = negb (truthy bit)
       /\ (bit = 0 \/ bit = 1 -> Z.b2z (level w' p) = 1 - bit)
       /\ trace w' = trace w ++ [EvSetValue p (negb (truthy bit))]
       /\ (forall l, l <> p -> line_value w' !! l = line_value w !! l))
  /\ (forall d, pulldown_gpiod pdata = NULL -> gpiod pdata = DESC d ->
     exists w', w1_gpio_write_bit pdata bit w = (Done tt, w')
       /\ level w' d = truthy bit
       /\ (bit = 0 \/ bit = 1 -> Z.b2z (level w' d) = bit)
       /\ trace w' = trace w ++ [EvSetValue d (truthy bit)]
       /\ (forall l, l <> d -> line_value w' !! l = line_value w !! l)).
Proof.
  split.
  - intros p Hp. eexists. split; [apply write_bit_world |].
    unfold drive_line. rewrite Hp. simpl.
    assert (Hlv : level (emit (EvSetValue p (negb (truthy bit)))
                    (set_level p (negb (truthy bit)) w)) p = negb (truthy bit))
      by (rewrite level_emit; apply level_set_level_eq).
    split; [exact Hlv |]. split.
    + rewrite Hlv. intros [-> | ->]; reflexivity.
    + split; [reflexivity |]. intros l Hne. by rewrite lookup_insert_ne.
  - intros d Hp Hd. eexists. split; [apply write_bit_world |].
    unfold drive_line. rewrite Hp, Hd. simpl.
    assert (Hlv : level (emit (EvSetValue d (truthy bit))
                    (set_level d (truthy bit) w)) d = truthy bit)
      by (rewrite level_emit; apply level_set_level_eq).
    split; [exact Hlv |]. split.
    + rewrite Hlv. intros [-> | ->]; reflexivity.
    + split; [reflexivity |]. intros l Hne. by rewrite lookup_insert_ne.
Qed.

Lemma write_bit_drives_witness :
  pulldown_gpiod pdata_3lines = DESC 12 /\
  (exists w', w1_gpio_write_bit pdata_3lines 1 boot = (Done tt, w')
     /\ level w' 12 = false /\ trace w' = [EvSetValue 12 false]) /\
  pulldown_gpiod pdata_2lines = NULL /\ gpiod pdata_2lines = DESC 10 /\
  (exists w', w1_gpio_write_bit pdata_2lines 1 boot = (Done tt, w')
     /\ level w' 10 = true /\ trace w' = [EvSetValue 10 true]).
Proof.
  split; [reflexivity |]. split.
  - destruct (proj1 (write_bit_drives pdata_3lines 1 boot) 12%nat eq_refl)
      as (w' & Hrun & Hlv & _ & Htr & _).
    exists w'. repeat split; assumption.
  - split; [reflexivity |]. split; [reflexivity |].
    destruct (proj2 (write_bit_drives pdata_2lines 1 boot) 10%nat eq_refl eq_refl)
      as (w' & Hrun & Hlv & _ & Htr & _).
    exists w'. repeat split; assumption.
Defined.

(** C6: read_bit always returns (it cannot take an early error return),
    its result is 0 or 1, the world after it is the world before it, and
    with the data line [d] configured the result is 1 exactly when the
    level of [d] in that world is high. *)
Theorem read_bit_reads_level (pdata : w1_gpio_platform_data) (w : world) :
  exists r,
    w1_gpio_read_bit pdata w = (Done r, w)
    /\ (r = 0 \/ r = 1)
    /\ (forall d, gpiod pdata = DESC d -> (r = 1 <-> level w d = true)).
Proof.
  destruct (read_bit_world pdata w) as (r & Hrun & Hr).
  exists r. split; [exact Hrun |]. split; [exact Hr |].
  intros d Hd. revert Hrun. unfold w1_gpio_read_bit. rewrite Hd. run.
  destruct (level w d); simpl; intros [= <-]; split; congruence.
Qed.

Lemma read_bit_reads_level_witness :
  gpiod pdata_2lines = DESC 10 /\
  w1_gpio_read_bit pdata_2lines (set_level 10 true boot)
    = (Done 1, set_level 10 true boot) /\
  w1_gpio_read_bit pdata_2lines boot = (Done 0, boot).
Proof.
  split; [reflexivity |]. split.
  - destruct (read_bit_reads_level pdata_2lines (set_level 10 true boot))
      as (r & Hrun & _ & Hiff).
    rewrite (proj2 (Hiff 10%nat eq_refl) eq_refl) in Hrun. exact Hrun.
  - destruct (read_bit_reads_level pdata_2lines boot) as (r & Hrun & [-> | ->] & Hiff).
    + exact Hrun.
    + pose proof (proj1 (Hiff 10%nat eq_refl) eq_refl) as Habs.
      vm_compute in Habs. discriminate Habs.
Defined.

(** ** Sequences of calls *)

(** Every call returns, and none of them touches a pin handle or the
    configuration of a line. *)
Lemma invoke_total (c : w1_call) (pdata : w1_gpio_platform_data) (w : world) :
  exists r pdata' w',
    invoke c pdata w = (Done (r, pdata'), w')
    /\ gpiod pdata' = gpiod pdata
    /\ strong_pullup_gpiod pdata' = strong_pullup_gpiod pdata
    /\ pulldown_gpiod pdata' = pulldown_gpiod pdata
    /\ line_flags w' = line_flags w.
Proof.
  destruct c as [| bit | delay]; simpl.
  - destruct (read_bit_world pdata w) as (r & Hrun & _).
    exists r, pdata, w. unfold bind. rewrite Hrun. auto.
  - unfold bind. rewrite write_bit_world.
    eexists _, pdata, _. split; [reflexivity |].
    repeat split. destruct (drive_line pdata); reflexivity.
  - unfold w1_gpio_set_pullup. run.
    destruct (truthy delay); [eexists _, _, _; repeat split |].
    destruct (truthy (strong_pullup_duration pdata)),
      (strong_pullup_gpiod pdata) eqn:Hsp; simpl;
      eexists _, _, _; repeat split; simpl; auto.
Qed.

Lemma run_calls_total (cs : list w1_call) :
  forall (pdata : w1_gpio_platform_data) (w : world),
  exists rs pdata' w',
    run_calls cs pdata w = (Done (rs, pdata'), w')
    /\ gpiod pdata' = gpiod pdata
    /\ strong_pullup_gpiod pdata' = strong_pullup_gpiod pdata
    /\ pulldown_gpiod pdata' = pulldown_gpiod pdata
    /\ line_flags w' = line_flags w.
Proof.
  induction cs as [| c cs IH]; intros pdata w; simpl.
  - exists [], pdata, w. auto.
  - destruct (invoke_total c pdata w) as (r & p1 & w1 & Hc & Hg & Hs & Hp & Hf).
    destruct (IH p1 w1) as (rs & p2 & w2 & Hcs & Hg2 & Hs2 & Hp2 & Hf2).
    exists (r :: rs), p2, w2. unfold bind. rewrite Hc. simpl.
    unfold bind in Hcs |- *. rewrite Hcs. simpl.
    repeat split; congruence.
Qed.

(** ** remove *)

Lemma remove_world (master : w1_bus_master) (pdata : w1_gpio_platform_data)
    (w : world) :
  w1_gpio_remove master pdata w =
    (Done 0,
     emit (EvRemoveMaster master)
       match strong_pullup_gpiod pdata with
       | DESC l => emit (EvSetValue l false) (set_level l false w)
       | _ => w
       end).
Proof.
  unfold w1_gpio_remove.
  destruct (strong_pullup_gpiod pdata); reflexivity.
Qed.

(** C9: after any sequence of calls, from any platform data and any
    world, remove returns 0; with a strong pull-up line [l] it first sets
    [l] inactive and then unregisters the master, and these are its only
    two actions, leaving [l] inactive; with no strong pull-up line it
    only unregisters the master. *)
Theorem remove_deactivates_then_unregisters
    (cs : list w1_call) (pdata0 : w1_gpio_platform_data) (w0 : world)
    (master : w1_bus_master) :
  exists rs pdata w w',
    run_calls cs pdata0 w0 = (Done (rs, pdata), w)
    /\ w1_gpio_remove master pdata w = (Done 0, w')
    /\ (forall l, strong_pullup_gpiod pdata0 = DESC l ->
          trace w' = trace w ++ [EvSetValue l false; EvRemoveMaster master]
          /\ level w' l = false)
    /\ (strong_pullup_gpiod pdata0 = NULL ->
          w' = emit (EvRemoveMaster master) w).
Proof.
  destruct (run_calls_total cs pdata0 w0) as (rs & pdata & w & Hrun & _ & Hs & _).
  eexists rs, pdata, w, _. split; [exact Hrun |].
  split; [apply remove_world |]. rewrite Hs. split.
  - intros l ->. simpl. rewrite <- app_assoc. split; [reflexivity |].
    unfold level. simpl. by rewrite lookup_insert_eq.
  - intros ->. reflexivity.
Qed.

Lemma remove_deactivates_then_unregisters_witness :
  strong_pullup_gpiod pdata_2lines = DESC 11 /\
  exists rs pdata w w',
    run_calls [call_set_pullup 200; call_write_bit 1; call_set_pullup 0]
      pdata_2lines (set_level 11 true boot) = (Done (rs, pdata), w)
    /\ w1_gpio_remove zeroed_master pdata w = (Done 0, w')
    /\ trace w' = trace w ++ [EvSetValue 11 false; EvRemoveMaster zeroed_master]
    /\ level w' 11 = false.
Proof.
  split; [reflexivity |].
  destruct (remove_deactivates_then_unregisters
              [call_set_pullup 200; call_write_bit 1; call_set_pullup 0]
              pdata_2lines (set_level 11 true boot) zeroed_master)
    as (rs & pdata & w & w' & Hrun & Hrm & Hsp & _).
  exists rs, pdata, w, w'.
  destruct (Hsp 11%nat eq_refl) as [Htr Hlv].
  repeat split; assumption.
Defined.

(** ** The frame of the bit operations *)

Lemma bit_io_step (c : w1_call) (pdata : w1_gpio_platform_data) (w : world) :
  is_bit_io c = true ->
  exists r w' evs,
    invoke c pdata w = (Done (r, pdata), w')
    /\ trace w' = trace w ++ evs
    /\ Forall (sets_value_of (drive_line pdata)) evs
    /\ line_flags w' = line_flags w
    /\ allocs_left w' = allocs_left w
    /\ add_master_rc w' = add_master_rc w
    /\ (forall l, drive_line pdata <> DESC l ->
          line_value w' !! l = line_value w !! l).
Proof.
  destruct c as [| bit | delay]; simpl; [| | discriminate]; intros _.
  - destruct (read_bit_world pdata w) as (r & Hrun & _).
    exists r, w, []. unfold bind. rewrite Hrun. simpl.
    rewrite app_nil_r. repeat split; auto.
  - unfold bind. rewrite write_bit_world.
    destruct (drive_line pdata) as [| rc | l] eqn:Hdl.
    + exists 0, w, []. rewrite app_nil_r. repeat split; auto.
    + exists 0, w, []. rewrite app_nil_r. repeat split; auto.
    + eexists 0, _, [_]. split; [reflexivity |]. simpl.
      split; [reflexivity |]. split.
      * constructor; [| constructor]. eexists _, _. split; reflexivity.
      * repeat split. intros l' Hne. apply lookup_insert_ne. congruence.
Qed.

(** C10: a sequence of bit reads and bit writes always runs to its end
    and hands back the platform data it was given (same duration, same
    three handles); the world changes only by set-value events on the
    line write_bit drives (the pull-down line if there is one, the data
    line otherwise): the configuration of every line, and the level of
    every other line, are as before.  A read alone leaves the whole world
    as it was.  A set_pullup(0) after the sequence therefore finds the
    duration that was pending before it. *)
Theorem bit_io_frame (cs : list w1_call) :
  forall (pdata : w1_gpio_platform_data) (w : world),
  forallb is_bit_io cs = true ->
  (exists rs w' evs,
    run_calls cs pdata w = (Done (rs, pdata), w')
    /\ trace w' = trace w ++ evs
    /\ Forall (sets_value_of (drive_line pdata)) evs
    /\ line_flags w' = line_flags w
    /\ allocs_left w' = allocs_left w
    /\ add_master_rc w' = add_master_rc w
    /\ (forall l, drive_line pdata <> DESC l ->
          line_value w' !! l = line_value w !! l)
    /\ run_calls (cs ++ [call_set_pullup 0]) pdata w
         = (rs' <- w1_gpio_set_pullup pdata 0 ;;
            ret (rs ++ [fst rs'], snd rs')) w')
  /\ (exists r, invoke call_read_bit pdata w = (Done (r, pdata), w)).
Proof.
  intros pdata w Hio. split.
  - revert pdata w Hio.
    induction cs as [| c cs IH]; intros pdata w Hio.
    + exists [], w, []. simpl. rewrite app_nil_r.
      repeat split; auto.
    + simpl in Hio. apply andb_prop in Hio as [Hc Hcs].
      destruct (bit_io_step c pdata w Hc)
        as (r & w1 & ev1 & Hrun1 & Htr1 & Hev1 & Hf1 & Ha1 & Hm1 & Hl1).
      destruct (IH pdata w1 Hcs)
        as (rs & w2 & ev2 & Hrun2 & Htr2 & Hev2 & Hf2 & Ha2 & Hm2 & Hl2 & Hsp).
      exists (r :: rs), w2, (ev1 ++ ev2).
      split.
      { simpl. unfold bind at 1. rewrite Hrun1. simpl.
        unfold bind at 1. rewrite Hrun2. reflexivity. }
      split; [rewrite Htr2, Htr1, app_assoc; reflexivity |].
      split; [apply Forall_app; split; assumption |].
      split; [congruence |]. split; [congruence |]. split; [congruence |].
      split; [intros l Hne; rewrite Hl2, Hl1; auto |].
      simpl. unfold bind at 1. rewrite Hrun1. simpl.
      unfold bind at 1. rewrite Hsp. unfold bind, ret.
      destruct (w1_gpio_set_pullup pdata 0 w2) as [[[r' p] | rc] w3]; reflexivity.
  - destruct (read_bit_world pdata w) as (r & Hrun & _).
    exists r. simpl. unfold bind. rewrite Hrun. reflexivity.
Qed.

Lemma bit_io_frame_witness :
  forallb is_bit_io [call_write_bit 0; call_read_bit; call_write_bit 1] = true /\
  exists rs w',
    run_calls [call_write_bit 0; call_read_bit; call_write_bit 1]
      (set_strong_pullup_duration 200 pdata_3lines) boot
      = (Done (rs, set_strong_pullup_duration 200 pdata_3lines), w')
    /\ line_value w' !! 10%nat = line_value boot !! 10%nat
    /\ line_value w' !! 11%nat = line_value boot !! 11%nat.
Proof.
  split; [reflexivity |].
  destruct (proj1 (bit_io_frame [call_write_bit 0; call_read_bit; call_write_bit 1]
              (set_strong_pullup_duration 200 pdata_3lines) boot eq_refl))
    as (rs & w' & evs & Hrun & _ & _ & _ & _ & _ & Hlv & _).
  exists rs, w'. split; [exact Hrun |].
  split; apply Hlv; simpl; discriminate.
Defined.

(** ** probe *)

(** Splits the hypotheses that a line was free when it was requested. *)
Ltac free_lines :=
  repeat match goal with
  | H : <[_ := _]> _ !! _ = None |- _ =>
      apply lookup_insert_None in H as [? ?]
  end.

(** What a probe that returns 0 has done.  [d], [s] and [p] are the
    lines behind the data, strong pull-up and pull-down handles. *)
Lemma probe_done_inv (pdev : platform_device) (w w' : world)
    (pdata : w1_gpio_platform_data) (master : w1_bus_master) :
  w1_gpio_probe pdev w = (Done (pdata, master), w') ->
  exists d s,
    gpios pdev !! 0%nat = Some (Line d)
    /\ gpios pdev !! 1%nat = Some (Line s)
    /\ gpiod pdata = DESC d
    /\ strong_pullup_gpiod pdata = DESC s
    /\ master = {| read_bit := Some fn_w1_gpio_read_bit;
                   write_bit := Some fn_w1_gpio_write_bit;
                   set_pullup := Some fn_w1_gpio_set_pullup |}
    /\ match gpios pdev !! 2%nat with
       | Some (Line p) =>
           pulldown_gpiod pdata = DESC p
           /\ line_flags w' !! d = Some GPIOD_IN
           /\ line_value w' !! d = line_value w !! d
           /\ trace w' = trace w ++
                [EvRequest 2 p GPIOD_OUT_LOW; EvRequest 0 d GPIOD_IN;
                 EvRequest 1 s GPIOD_OUT_LOW; EvAddMaster master 0]
       | Some (Unavailable _) => False
       | None =>
           let gflags := if external_open_drain pdev
                         then GPIOD_OUT_LOW else GPIOD_OUT_LOW_OPEN_DRAIN in
           pulldown_gpiod pdata = NULL
           /\ line_flags w' !! d = Some gflags
           /\ level w' d = true
           /\ trace w' = trace w ++
                [EvRequest 0 d gflags; EvRequest 1 s GPIOD_OUT_LOW;
                 EvDirectionOutput d true; EvAddMaster master 0]
       end.
Proof.
  intros H.
  match goal with |- ?G => set (claim := G) end.
  unfold w1_gpio_probe, w1_gpio_probe_register, devm_gpiod_get_index_optional,
    devm_gpiod_get_index, devm_kzalloc in H.
  revert H. run.
  repeat (case_match; simplify_eq/=; try done).
  all: intros; simplify_eq/=; free_lines; subst claim.
  all: match goal with
       | H : truthy ?rc = false |- _ =>
           assert (rc = 0)
             by (unfold truthy in H; destruct (Z.eqb_spec rc 0);
                 [assumption | discriminate]);
           clear H
       end.
  all: eexists _, _; do 5 (split; [reflexivity |]).
  all: unfold external_open_drain, level; simpl.
  all: repeat match goal with
       | H : of_have_populated_dt _ = _ |- _ => rewrite H
       | H : of_get_property _ _ = _ |- _ => rewrite H
       | H : gpios _ !! _ = _ |- _ => rewrite H
       | H : add_master_rc _ = _ |- _ => rewrite H
       end; simpl.
  all: rewrite <- ?app_assoc; simpl.
  all: repeat split; try reflexivity.
  all: simplify_map_eq; reflexivity.
Qed.

(** C7: after a probe that returns 0, with [d] the data line: if a
    pull-down line [p] is assigned (index 2), the data line was requested
    as an input and is never driven by the probe, and [p] is the line
    write_bit drives; if none is assigned and the external open-drain
    flag is not set, the data line was requested as an open-drain output,
    low, and then driven high; if none is assigned and the flag is set,
    the data line was requested as a plain output, low (and it, too, is
    then driven high).  In the last two cases the data line is the line
    write_bit drives. *)
Theorem probe_selects_data_line_mode (pdev : platform_device) (w w' : world)
    (pdata : w1_gpio_platform_data) (master : w1_bus_master) :
  w1_gpio_probe pdev w = (Done (pdata, master), w') ->
  exists d s,
    gpios pdev !! 0%nat = Some (Line d) /\ gpiod pdata = DESC d
    /\ (forall p, gpios pdev !! 2%nat = Some (Line p) ->
          pulldown_gpiod pdata = DESC p
          /\ drive_line pdata = DESC p
          /\ line_flags w' !! d = Some GPIOD_IN
          /\ line_value w' !! d = line_value w !! d
          /\ trace w' = trace w ++
               [EvRequest 2 p GPIOD_OUT_LOW; EvRequest 0 d GPIOD_IN;
                EvRequest 1 s GPIOD_OUT_LOW; EvAddMaster master 0])
    /\ (gpios pdev !! 2%nat = None -> external_open_drain pdev = false ->
          pulldown_gpiod pdata = NULL
          /\ drive_line pdata = DESC d
          /\ line_flags w' !! d = Some GPIOD_OUT_LOW_OPEN_DRAIN
          /\ level w' d = true
          /\ trace w' = trace w ++
               [EvRequest 0 d GPIOD_OUT_LOW_OPEN_DRAIN;
                EvRequest 1 s GPIOD_OUT_LOW;
                EvDirectionOutput d true; EvAddMaster master 0])
    /\ (gpios pdev !! 2%nat = None -> external_open_drain pdev = true ->
          pulldown_gpiod pdata = NULL
          /\ drive_line pdata = DESC d
          /\ line_flags w' !! d = Some GPIOD_OUT_LOW
          /\ level w' d = true
          /\ trace w' = trace w ++
               [EvRequest 0 d GPIOD_OUT_LOW;
                EvRequest 1 s GPIOD_OUT_LOW;
                EvDirectionOutput d true; EvAddMaster master 0]).
Proof.
  intros Hrun.
  destruct (probe_done_inv _ _ _ _ _ Hrun) as (d & s & H0 & H1 & Hd & Hs & _ & H2).
  exists d, s. split; [exact H0 |]. split; [exact Hd |].
  unfold drive_line. split; [| split].
  - intros p Hp. rewrite Hp in H2. destruct H2 as (Hpd & Hf & Hv & Htr).
    rewrite Hpd. simpl. auto.
  - intros Hp Hod. rewrite Hp, Hod in H2. simpl in H2.
    destruct H2 as (Hpd & Hf & Hv & Htr). rewrite Hpd. simpl. auto.
  - intros Hp Hod. rewrite Hp, Hod in H2. simpl in H2.
    destruct H2 as (Hpd & Hf & Hv & Htr). rewrite Hpd. simpl. auto.
Qed.

Lemma probe_selects_data_line_mode_witness :
  (exists pdata master w',
     w1_gpio_probe dev_3lines boot = (Done (pdata, master), w')
     /\ line_flags w' !! 10%nat = Some GPIOD_IN
     /\ drive_line pdata = DESC 12)
  /\ (exists pdata master w',
     w1_gpio_probe dev_data_strong boot = (Done (pdata, master), w')
     /\ line_flags w' !! 10%nat = Some GPIOD_OUT_LOW_OPEN_DRAIN
     /\ level w' 10 = true)
  /\ (exists pdata master w',
     w1_gpio_probe dev_data_strong_od boot = (Done (pdata, master), w')
     /\ line_flags w' !! 10%nat = Some GPIOD_OUT_LOW).
Proof.
  split; [| split].
  - destruct (w1_gpio_probe dev_3lines boot) as [[[pdata master] | rc] w'] eqn:Hrun;
      [| vm_compute in Hrun; discriminate Hrun].
    exists pdata, master, w'. split; [reflexivity |].
    destruct (probe_selects_data_line_mode _ _ _ _ _ Hrun)
      as (d & s & H0 & _ & Hpd & _).
    vm_compute in H0. injection H0 as <-.
    destruct (Hpd 12%nat eq_refl) as (_ & Hdl & Hf & _).
    split; assumption.
  - destruct (w1_gpio_probe dev_data_strong boot)
      as [[[pdata master] | rc] w'] eqn:Hrun;
      [| vm_compute in Hrun; discriminate Hrun].
    exists pdata, master, w'. split; [reflexivity |].
    destruct (probe_selects_data_line_mode _ _ _ _ _ Hrun)
      as (d & s & H0 & _ & _ & Hod & _).
    vm_compute in H0. injection H0 as <-.
    destruct (Hod eq_refl eq_refl) as (_ & _ & Hf & Hlv & _).
    split; assumption.
  - destruct (w1_gpio_probe dev_data_strong_od boot)
      as [[[pdata master] | rc] w'] eqn:Hrun;
      [| vm_compute in Hrun; discriminate Hrun].
    exists pdata, master, w'. split; [reflexivity |].
    destruct (probe_selects_data_line_mode _ _ _ _ _ Hrun)
      as (d & s & H0 & _ & _ & _ & Hext).
    vm_compute in H0. injection H0 as <-.
    destruct (Hext eq_refl eq_refl) as (_ & _ & Hf & _).
    exact Hf.
Defined.

(** The registration step, when it returns 0: the master it handed to
    the w1 core, and the one place where set_pullup is decided. *)
Lemma probe_register_done (gflags : gpiod_flags) (pdata pdata' : w1_gpio_platform_data)
    (master : w1_bus_master) (w w' : world) :
  w1_gpio_probe_register gflags pdata zeroed_master w = (Done (pdata', master), w') ->
  pdata' = pdata
  /\ master =
       {| read_bit := Some fn_w1_gpio_read_bit;
          write_bit := Some fn_w1_gpio_write_bit;
          set_pullup :=
            if bool_decide (gflags = GPIOD_OUT_LOW_OPEN_DRAIN)
               || non_null (strong_pullup_gpiod pdata)
            then Some fn_w1_gpio_set_pullup else None |}
  /\ exists evs, trace w' = trace w ++ evs ++ [EvAddMaster master 0].
Proof.
  unfold w1_gpio_probe_register. run.
  destruct (bool_decide (gflags = GPIOD_OUT_LOW_OPEN_DRAIN)
            || non_null (strong_pullup_gpiod pdata));
    destruct (negb (non_null (pulldown_gpiod pdata)));
    destruct (gpiod pdata); simpl;
    destruct (truthy _) eqn:Hrc; intros [= <- <- <-];
    (split; [reflexivity |]); (split; [reflexivity |]);
    unfold truthy in Hrc;
    match type of Hrc with
    | negb (?rc =? 0) = false =>
        destruct (Z.eqb_spec rc 0) as [-> | ?]; [| discriminate Hrc]
    end; simpl;
    first [ by exists [] | by eexists [_]; rewrite <- app_assoc ].
Qed.

(** A probe of a device with nothing assigned to index 1 hands no master
    to the w1 core. *)
Lemma probe_without_strong_pullup (pdev : platform_device) (w : world) :
  gpios pdev !! 1%nat = None ->
  exists rc w' logs,
    w1_gpio_probe pdev w = (Return rc, w')
    /\ trace w' = trace w ++ logs
    /\ (forall m r, EvAddMaster m r ∉ logs).
Proof.
  intros H1.
  destruct (w1_gpio_probe pdev w) as [o w'] eqn:Hrun. revert Hrun.
  unfold w1_gpio_probe, w1_gpio_probe_register, devm_gpiod_get_index_optional,
    devm_gpiod_get_index, devm_kzalloc. rewrite H1. run.
  repeat (case_match; simplify_eq/=; try done).
  all: intros [= <- <-]; eexists _, _, _; (split; [reflexivity |]); simpl.
  all: try rewrite <- !app_assoc; simpl.
  all: first [ split; [reflexivity |]
             | split; [symmetry; apply app_nil_r |] ].
  all: intros m r Hin; repeat (apply elem_of_cons in Hin as [Hin | Hin];
         [discriminate Hin |]); by apply elem_of_nil in Hin.
Qed.

(** Every probe that returns 0 has a strong pull-up line and registers
    the master with set_pullup set: no attach leaves set_pullup out. *)
Lemma probe_done_advertises (pdev : platform_device) (w w' : world)
    (pdata : w1_gpio_platform_data) (master : w1_bus_master) :
  w1_gpio_probe pdev w = (Done (pdata, master), w') ->
  set_pullup master = Some fn_w1_gpio_set_pullup
  /\ (exists s, strong_pullup_gpiod pdata = DESC s)
  /\ (exists pre, trace w' = trace w ++ pre ++ [EvAddMaster master 0]).
Proof.
  intros Hrun.
  destruct (probe_done_inv _ _ _ _ _ Hrun) as (d & s & _ & _ & _ & Hs & -> & H2).
  split; [reflexivity |]. split; [eauto |].
  destruct (gpios pdev !! 2%nat) as [[p | rc] |]; [| contradiction |].
  - destruct H2 as (_ & _ & _ & ->). by eexists [_; _; _].
  - destruct H2 as (_ & _ & _ & ->). by eexists [_; _; _].
Qed.

(** C3: what the probe advertises when nothing is assigned to index 1.
    With the external open-drain flag set and no strong pull-up line (the
    case the claim singles out), the probe requests the data line as a
    plain output, logs the failure of the strong pull-up request and
    returns [-ENOENT]; with the flag unset, so that the data line is in
    open-drain mode, it does the same.  In both cases no master reaches
    the w1 core, so nothing is advertised, neither with set_pullup nor
    without it.  The registration step alone, given the plain-output
    flags and no strong pull-up handle, would register a master without
    set_pullup, but the probe never reaches it with such handles.  Only
    with a strong pull-up line assigned is a master registered, and then
    with set_pullup set. *)
Theorem probe_advertises_nothing_without_strong_pullup :
  probe_rc (fst (w1_gpio_probe dev_data_od boot)) = - ENOENT
  /\ trace (snd (w1_gpio_probe dev_data_od boot))
       = [EvRequest 0 10 GPIOD_OUT_LOW;
          EvLog "gpio_request (strong pull up pin) failed\n"]
  /\ probe_rc (fst (w1_gpio_probe dev_data_only boot)) = - ENOENT
  /\ trace (snd (w1_gpio_probe dev_data_only boot))
       = [EvRequest 0 10 GPIOD_OUT_LOW_OPEN_DRAIN;
          EvLog "gpio_request (strong pull up pin) failed\n"]
  /\ w1_gpio_probe_register GPIOD_OUT_LOW pdata_1line zeroed_master boot
       = (Done (pdata_1line,
                {| read_bit := Some fn_w1_gpio_read_bit;
                   write_bit := Some fn_w1_gpio_write_bit;
                   set_pullup := None |}),
          emit (EvAddMaster
                  {| read_bit := Some fn_w1_gpio_read_bit;
                     write_bit := Some fn_w1_gpio_write_bit;
                     set_pullup := None |} 0)
            (emit (EvDirectionOutput 10 true) (set_level 10 true boot)))
  /\ fst (w1_gpio_probe dev_data_strong_od boot)
       = Done (pdata_2lines,
               {| read_bit := Some fn_w1_gpio_read_bit;
                  write_bit := Some fn_w1_gpio_write_bit;
                  set_pullup := Some fn_w1_gpio_set_pullup |}).
Proof. repeat split. Qed.

(** C4: what the probe does when nothing is assigned to index 1.  With
    the data line alone, or the data line and a pull-down line, the probe
    requests what is there, logs the failure of the strong pull-up
    request and returns [-ENOENT]; with a data line and a strong pull-up
    line but no pull-down line it returns 0.  So of the two lines only
    the pull-down line (index 2) may be left out. *)
Theorem probe_needs_strong_pullup_line :
  probe_rc (fst (w1_gpio_probe dev_data_only boot)) = - ENOENT
  /\ trace (snd (w1_gpio_probe dev_data_only boot))
       = [EvRequest 0 10 GPIOD_OUT_LOW_OPEN_DRAIN;
          EvLog "gpio_request (strong pull up pin) failed\n"]
  /\ probe_rc (fst (w1_gpio_probe dev_data_pulldown boot)) = - ENOENT
  /\ trace (snd (w1_gpio_probe dev_data_pulldown boot))
       = [EvRequest 2 12 GPIOD_OUT_LOW; EvRequest 0 10 GPIOD_IN;
          EvLog "gpio_request (strong pull up pin) failed\n"]
  /\ fst (w1_gpio_probe dev_data_strong boot)
       = Done (pdata_2lines,
               {| read_bit := Some fn_w1_gpio_read_bit;
                  write_bit := Some fn_w1_gpio_write_bit;
                  set_pullup := Some fn_w1_gpio_set_pullup |}).
Proof. repeat split. Qed.

(** ** ns_to_timespec *)

Lemma wrap_s32_range (z : Z) : - 2 ^ 31 <= wrap_s32 z < 2 ^ 31.
Proof.
  unfold wrap_s32.
  pose proof (Z.mod_pos_bound (z + 2 ^ 31) (2 ^ 32) ltac:(lia)). lia.
Qed.

Lemma wrap_s32_small (z : Z) : - 2 ^ 31 <= z < 2 ^ 31 -> wrap_s32 z = z.
Proof. intros H. unfold wrap_s32. rewrite Z.mod_small; lia. Qed.

Lemma wrap_s32_fixed (z : Z) : wrap_s32 z = z <-> - 2 ^ 31 <= z < 2 ^ 31.
Proof.
  split; [| apply wrap_s32_small].
  intros H. rewrite <- H. apply wrap_s32_range.
Qed.

Lemma wrap_s32_pred (z : Z) : wrap_s32 (wrap_s32 z - 1) = wrap_s32 (z - 1).
Proof.
  unfold wrap_s32.
  replace ((z + 2 ^ 31) mod 2 ^ 32 - 2 ^ 31 - 1 + 2 ^ 31)
    with ((z + 2 ^ 31) mod 2 ^ 32 - 1) by lia.
  rewrite Zminus_mod_idemp_l. f_equal. f_equal. lia.
Qed.

(** Truncating division followed by the driver-style fix-up of a negative
    remainder is flooring division. *)
Lemma quot_rem_floor (n d : Z) :
  0 < d ->
  (Z.rem n d < 0 -> n / d = Z.quot n d - 1 /\ n mod d = Z.rem n d + d)
  /\ (0 <= Z.rem n d -> n / d = Z.quot n d /\ n mod d = Z.rem n d).
Proof.
  intros Hd.
  pose proof (Z.quot_rem' n d) as Hqr.
  pose proof (Z.rem_bound_abs n d ltac:(lia)) as Hb.
  pose proof (Z.mod_pos_bound n d Hd) as Hm.
  pose proof (Z.div_mod n d ltac:(lia)) as Hdm.
  split; intros Hr.
  - apply (Z.div_mod_unique d (n / d) (Z.quot n d - 1) (n mod d) (Z.rem n d + d));
      [left; lia | left; lia | lia].
  - apply (Z.div_mod_unique d (n / d) (Z.quot n d) (n mod d) (Z.rem n d));
      [left; lia | left; lia | lia].
Qed.

(** X1: for every input, ns_to_timespec yields the flooring quotient of
    the nanoseconds by NSEC_PER_SEC, reduced to 32 bits, as seconds, and
    the non-negative remainder as nanoseconds; so tv_nsec is always in
    [0, NSEC_PER_SEC), also for negative inputs, and the zero short-cut
    agrees with the general path. *)
Theorem ns_to_timespec_floor (nsec : Z) :
  tv_sec (ns_to_timespec nsec) = wrap_s32 (nsec / NSEC_PER_SEC)
  /\ tv_nsec (ns_to_timespec nsec) = nsec mod NSEC_PER_SEC
  /\ 0 <= tv_nsec (ns_to_timespec nsec) < NSEC_PER_SEC.
Proof.
  assert (HN : 0 < NSEC_PER_SEC) by (unfold NSEC_PER_SEC; lia).
  assert (Hgoal : tv_sec (ns_to_timespec nsec) = wrap_s32 (nsec / NSEC_PER_SEC)
                  /\ tv_nsec (ns_to_timespec nsec) = nsec mod NSEC_PER_SEC).
  { unfold ns_to_timespec, truthy. rewrite negb_involutive.
    destruct (Z.eqb_spec nsec 0) as [-> | Hnz]; [split; reflexivity |].
    unfold div_s64_rem. cbn [fst snd].
    pose proof (Z.rem_bound_abs nsec NSEC_PER_SEC ltac:(lia)) as Hb.
    assert (Hw : wrap_s32 (Z.rem nsec NSEC_PER_SEC) = Z.rem nsec NSEC_PER_SEC)
      by (apply wrap_s32_small; unfold NSEC_PER_SEC in *; lia).
    rewrite Hw.
    destruct (quot_rem_floor nsec NSEC_PER_SEC HN) as [Hneg Hpos].
    destruct (Z.ltb_spec (Z.rem nsec NSEC_PER_SEC) 0) as [Hr | Hr]; cbn [tv_sec tv_nsec].
    - destruct (Hneg Hr) as [-> ->]. rewrite wrap_s32_pred. split; [reflexivity |].
      apply wrap_s32_small. unfold NSEC_PER_SEC in *. lia.
    - destruct (Hpos Hr) as [-> ->]. split; reflexivity. }
  destruct Hgoal as [Hs Hn]. split; [exact Hs |]. split; [exact Hn |].
  rewrite Hn. apply Z.mod_pos_bound. exact HN.
Qed.

(** X2: the time specification stands for the nanoseconds it was made
    from exactly when the seconds fit 32 bits, that is when the input is
    in [-2^31 * NSEC_PER_SEC, 2^31 * NSEC_PER_SEC); outside that range
    the seconds have wrapped. *)
Theorem ns_to_timespec_exact_iff (nsec : Z) :
  timespec_ns (ns_to_timespec nsec) = nsec
  <-> - 2 ^ 31 * NSEC_PER_SEC <= nsec < 2 ^ 31 * NSEC_PER_SEC.
Proof.
  assert (HN : 0 < NSEC_PER_SEC) by (unfold NSEC_PER_SEC; lia).
  destruct (ns_to_timespec_floor nsec) as (Hs & Hn & _).
  unfold timespec_ns. rewrite Hs, Hn.
  pose proof (Z.div_mod nsec NSEC_PER_SEC ltac:(lia)) as Hdm.
  pose proof (Z.mod_pos_bound nsec NSEC_PER_SEC HN) as Hm.
  split.
  - intros H.
    assert (Hfix : wrap_s32 (nsec / NSEC_PER_SEC) = nsec / NSEC_PER_SEC) by nia.
    apply wrap_s32_fixed in Hfix. nia.
  - intros H.
    assert (Hq : - 2 ^ 31 <= nsec / NSEC_PER_SEC < 2 ^ 31).
    { split.
      - apply Z.div_le_lower_bound; lia.
      - apply Z.div_lt_upper_bound; lia. }
    rewrite (wrap_s32_small _ Hq). lia.
Qed.

(** X3: on inputs whose seconds fit 32 bits the conversion keeps the
    order of points in time. *)
Theorem ns_to_timespec_monotone (a b : Z) :
  - 2 ^ 31 * NSEC_PER_SEC <= a -> a <= b -> b < 2 ^ 31 * NSEC_PER_SEC ->
  timespec_le (ns_to_timespec a) (ns_to_timespec b).
Proof.
  intros Ha Hab Hb.
  assert (HN : 0 < NSEC_PER_SEC) by (unfold NSEC_PER_SEC; lia).
  destruct (ns_to_timespec_floor a) as (Hsa & Hna & Hra).
  destruct (ns_to_timespec_floor b) as (Hsb & Hnb & Hrb).
  pose proof (proj2 (ns_to_timespec_exact_iff a) ltac:(lia)) as Hea.
  pose proof (proj2 (ns_to_timespec_exact_iff b) ltac:(lia)) as Heb.
  unfold timespec_ns in Hea, Heb. unfold timespec_le.
  destruct (Z_lt_le_dec (tv_sec (ns_to_timespec a)) (tv_sec (ns_to_timespec b)))
    as [Hlt | Hge]; [left; exact Hlt | right].
  assert (tv_sec (ns_to_timespec a) = tv_sec (ns_to_timespec b)) by nia.
  split; [assumption | nia].
Qed.

Lemma ns_to_timespec_monotone_witness :
  - 2 ^ 31 * NSEC_PER_SEC <= -1 /\ -1 <= 1500000000 /\
  1500000000 < 2 ^ 31 * NSEC_PER_SEC /\
  ns_to_timespec (-1) = {| tv_sec := -1; tv_nsec := 999999999 |} /\
  ns_to_timespec 1500000000 = {| tv_sec := 1; tv_nsec := 500000000 |} /\
  timespec_le (ns_to_timespec (-1)) (ns_to_timespec 1500000000).
Proof.
  assert (H1 : - 2 ^ 31 * NSEC_PER_SEC <= -1) by (unfold NSEC_PER_SEC; lia).
  assert (H2 : -1 <= 1500000000) by lia.
  assert (H3 : 1500000000 < 2 ^ 31 * NSEC_PER_SEC) by (unfold NSEC_PER_SEC; lia).
  split; [exact H1 |]. split; [exact H2 |]. split; [exact H3 |].
  split; [reflexivity |]. split; [reflexivity |].
  exact (ns_to_timespec_monotone (-1) 1500000000 H1 H2 H3).
Defined.

(** ** When the probe succeeds, and what it returns when it does not *)

Ltac unfold_probe :=
  unfold w1_gpio_probe, w1_gpio_probe_register, devm_gpiod_get_index_optional,
    devm_gpiod_get_index, devm_kzalloc.

Lemma truthy_false (z : Z) : truthy z = false -> z = 0.
Proof.
  unfold truthy. destruct (Z.eqb_spec z 0); [auto | discriminate].
Qed.

(** X4: the probe returns 0 exactly when it has its configuration and
    memory, indices 0 and 1 are assigned to two different free lines,
    index 2 is unassigned or assigned to a third free line, and the w1
    core accepts the master. *)
Theorem probe_succeeds_iff (pdev : platform_device) (w : world) :
  (exists pdata master w', w1_gpio_probe pdev w = (Done (pdata, master), w'))
  <-> probe_has_config pdev w /\ lines_available pdev w /\ add_master_rc w = 0.
Proof.
  unfold probe_has_config, lines_available. split.
  - intros (pdata & master & w' & H).
    match goal with |- ?G => set (claim := G) end.
    revert H. unfold_probe. run.
    repeat (case_match; simplify_eq/=; try done).
    all: intros; simplify_eq/=; free_lines; subst claim.
    all: repeat match goal with
         | H : truthy _ = false |- _ => apply truthy_false in H
         | H : of_have_populated_dt _ = _ |- _ => rewrite H
         | H : allocs_left _ = _ |- _ => rewrite H
         end.
    all: split; [first [lia | split; [discriminate | lia]] |].
    all: split; [| assumption].
    all: eexists _, _; repeat split; eauto.
  - intros (Hcfg & (d & s & H0 & H1 & Hd & Hs & Hds & H2) & Hrc).
    unfold_probe. run. rewrite H0, H1.
    destruct (of_have_populated_dt pdev).
    + destruct (allocs_left w) as [| [| n]]; [lia | lia |]. simpl.
      destruct (gpios pdev !! 2%nat) as [[p | rc] |]; [| contradiction |].
      * destruct H2 as (Hp & Hpd & Hps). simpl. rewrite Hp. simpl.
        rewrite lookup_insert_ne by congruence. rewrite Hd. simpl.
        rewrite !lookup_insert_ne by congruence. rewrite Hs. simpl.
        rewrite Hrc. simpl. eauto.
      * simpl. rewrite Hd. simpl.
        destruct (of_get_property pdev "linux,open-drain"); simpl;
          rewrite !lookup_insert_ne by congruence; rewrite Hs; simpl;
          rewrite Hrc; simpl; eauto.
    + destruct Hcfg as [Hpd Hal].
      destruct (platform_data pdev) as [pd0 |]; [| contradiction]. simpl.
      destruct (allocs_left w) as [| n]; [lia |]. simpl.
      destruct (gpios pdev !! 2%nat) as [[p | rc] |]; [| contradiction |].
      * destruct H2 as (Hp & Hpd' & Hps). simpl. rewrite Hp. simpl.
        rewrite lookup_insert_ne by congruence. rewrite Hd. simpl.
        rewrite !lookup_insert_ne by congruence. rewrite Hs. simpl.
        rewrite Hrc. simpl. eauto.
      * simpl. rewrite Hd. simpl.
        rewrite !lookup_insert_ne by congruence; rewrite Hs; simpl.
        rewrite Hrc. simpl. eauto.
Qed.

Lemma probe_succeeds_iff_witness :
  probe_has_config dev_3lines boot /\ lines_available dev_3lines boot
  /\ add_master_rc boot = 0
  /\ exists pdata master w',
       w1_gpio_probe dev_3lines boot = (Done (pdata, master), w').
Proof.
  assert (Hc : probe_has_config dev_3lines boot) by (vm_compute; lia).
  assert (Hl : lines_available dev_3lines boot).
  { exists 10%nat, 11%nat. repeat split; try reflexivity; discriminate. }
  split; [exact Hc |]. split; [exact Hl |]. split; [reflexivity |].
  exact (proj2 (probe_succeeds_iff dev_3lines boot) (conj Hc (conj Hl eq_refl))).
Defined.

(** X5: a probe that lacks its configuration or its memory returns before
    it touches any GPIO: -ENXIO when there is no device tree and no
    platform data, -ENOMEM otherwise; no line is requested or driven, and
    the only trace it may leave is a log line. *)
Theorem probe_without_config_or_memory (pdev : platform_device) (w : world) :
  ~ probe_has_config pdev w ->
  exists w' logs,
    w1_gpio_probe pdev w =
      (Return (if negb (of_have_populated_dt pdev)
                  && bool_decide (platform_data pdev = None)
               then - ENXIO else - ENOMEM), w')
    /\ line_flags w' = line_flags w
    /\ line_value w' = line_value w
    /\ trace w' = trace w ++ logs
    /\ Forall (fun e => exists msg, e = EvLog msg) logs.
Proof.
  unfold probe_has_config. intros Hcfg. unfold_probe. run.
  destruct (of_have_populated_dt pdev); simpl.
  - destruct (allocs_left w) as [| [| n]]; [| | lia]; simpl.
    + exists w, []. rewrite app_nil_r. repeat split; auto.
    + eexists _, [_]. repeat split; simpl; eauto.
  - destruct (platform_data pdev) as [pd0 |]; simpl.
    + destruct (allocs_left w) as [| n]; simpl.
      * eexists _, [_]. repeat split; simpl; eauto.
      * exfalso. apply Hcfg. split; [discriminate | lia].
    + eexists _, [_]. repeat split; simpl; eauto.
Qed.

Lemma probe_without_config_or_memory_witness :
  ~ probe_has_config board_no_platdata boot
  /\ exists w',
       w1_gpio_probe board_no_platdata boot = (Return (- ENXIO), w')
       /\ line_flags w' = line_flags boot.
Proof.
  assert (Hc : ~ probe_has_config board_no_platdata boot)
    by (intros [Hpd _]; apply Hpd; reflexivity).
  split; [exact Hc |].
  destruct (probe_without_config_or_memory _ _ Hc)
    as (w' & logs & Hrun & Hf & _).
  exists w'. split; [exact Hrun | exact Hf].
Defined.

(** X6: the probe hands back error codes unchanged.  With configuration
    and memory in place: the code of a failing pull-down request (index
    2) is returned before any line is requested; otherwise the code of a
    failing data-line request (index 0); otherwise, with the data line
    obtained, the code of a failing strong pull-up request (index 1);
    and with all lines obtained, the non-zero code of the w1 core. *)
Theorem probe_propagates_errors (pdev : platform_device) (w : world) (rc : Z) :
  probe_has_config pdev w ->
  (gpios pdev !! 2%nat = Some (Unavailable rc) ->
     exists w', w1_gpio_probe pdev w = (Return rc, w')
       /\ line_flags w' = line_flags w)
  /\ (pulldown_obtainable pdev w ->
      gpios pdev !! 0%nat = Some (Unavailable rc) ->
      exists w', w1_gpio_probe pdev w = (Return rc, w'))
  /\ (pulldown_obtainable pdev w ->
      (exists d, gpios pdev !! 0%nat = Some (Line d)
         /\ line_flags w !! d = None
         /\ gpios pdev !! 2%nat <> Some (Line d)) ->
      gpios pdev !! 1%nat = Some (Unavailable rc) ->
      exists w', w1_gpio_probe pdev w = (Return rc, w'))
  /\ (lines_available pdev w ->
      add_master_rc w = rc -> rc <> 0 ->
      exists w' evs,
        w1_gpio_probe pdev w = (Return rc, w')
        /\ trace w' = trace w ++ evs ++
             [EvLog "w1_add_master device failed\n"]).
Proof.
  unfold probe_has_config, pulldown_obtainable, lines_available.
  intros Hcfg.
  assert (Hstart :
    (of_have_populated_dt pdev = true /\ exists n, allocs_left w = S (S n))
    \/ (of_have_populated_dt pdev = false
        /\ exists pd0 n, platform_data pdev = Some pd0 /\ allocs_left w = S n)).
  { destruct (of_have_populated_dt pdev).
    - left. split; [reflexivity |].
      destruct (allocs_left w) as [| [| n]]; [lia | lia | eauto].
    - right. split; [reflexivity |]. destruct Hcfg as [Hpd Hal].
      destruct (platform_data pdev) as [pd0 |]; [| contradiction].
      destruct (allocs_left w) as [| n]; [lia | eauto]. }
  unfold_probe. run.
  destruct Hstart as [(HDT & n & Hal) | (HDT & pd0 & n & Hpd & Hal)];
    rewrite HDT; simpl; rewrite ?Hpd, Hal; simpl;
    destruct (of_get_property pdev "linux,open-drain"); simpl.
  all: split; [| split; [| split]].
  all: try (intros H2; rewrite H2; simpl; eauto; fail).
  all: try (intros H2 H0; rewrite H0;
            destruct (gpios pdev !! 2%nat) as [[p | e] |];
              [| contradiction |]; simpl;
              [rewrite H2; simpl; eauto | eauto]; fail).
  all: try (intros H2 (d & H0 & Hd & Hne) H1; rewrite H0, H1;
            destruct (gpios pdev !! 2%nat) as [[p | e] |];
              [| contradiction |]; simpl;
              [ rewrite H2; simpl; rewrite lookup_insert_ne by congruence;
                rewrite Hd; simpl; eauto
              | rewrite Hd; simpl; eauto ]; fail).
  all: intros (d & s & H0 & H1 & Hd & Hs & Hds & H2) Hrc Hnz;
       rewrite H0, H1;
       destruct (gpios pdev !! 2%nat) as [[p | e] |]; [| contradiction |]; simpl;
       [ destruct H2 as (Hp & Hpd' & Hps); rewrite Hp; simpl;
         rewrite lookup_insert_ne by congruence; rewrite Hd; simpl;
         rewrite !lookup_insert_ne by congruence; rewrite Hs; simpl
       | rewrite Hd; simpl;
         rewrite !lookup_insert_ne by congruence; rewrite Hs; simpl ];
       rewrite Hrc, (truthy_nonzero _ Hnz); simpl;
       (eexists _, [_; _; _; _]; split; [reflexivity |]); simpl;
       rewrite <- !app_assoc; reflexivity.
Qed.

Lemma probe_propagates_errors_witness :
  probe_has_config dev_data_unavailable boot
  /\ pulldown_obtainable dev_data_unavailable boot
  /\ gpios dev_data_unavailable !! 0%nat = Some (Unavailable (- EBUSY))
  /\ exists w', w1_gpio_probe dev_data_unavailable boot = (Return (- EBUSY), w').
Proof.
  assert (Hc : probe_has_config dev_data_unavailable boot) by (vm_compute; lia).
  assert (Hp : pulldown_obtainable dev_data_unavailable boot) by exact I.
  split; [exact Hc |]. split; [exact Hp |]. split; [reflexivity |].
  destruct (probe_propagates_errors dev_data_unavailable boot (- EBUSY) Hc)
    as (_ & Hdata & _).
  exact (Hdata Hp eq_refl).
Defined.

Ltac elem_cases H :=
  repeat (apply elem_of_cons in H as [H | H]; [try discriminate H |]);
  try (apply elem_of_nil in H; contradiction).

(** One step of the case analysis along the probe, in program order. *)
Ltac probe_case :=
  match goal with
  | |- context [of_have_populated_dt ?p] =>
      destruct (of_have_populated_dt p) eqn:?
  | |- context [match allocs_left ?w with _ => _ end] =>
      destruct (allocs_left w) eqn:?
  | |- context [match ?n with O => _ | S _ => _ end] =>
      is_var n; destruct n
  | |- context [match platform_data ?p with _ => _ end] =>
      destruct (platform_data p) eqn:?
  | |- context [match gpios ?p !! ?i with _ => _ end] =>
      destruct (gpios p !! i) as [[? | ?] |] eqn:?
  | |- context [match ?m !! ?l with _ => _ end] =>
      destruct (m !! l) eqn:?
  | |- context [of_get_property ?p ?s] =>
      destruct (of_get_property p s) eqn:?
  | |- context [truthy ?z] =>
      destruct (truthy z) eqn:?
  end.

(** X7: whatever the device and the world, the probe returns 0 exactly
    when it has handed a master to the w1 core and the core has accepted
    it (answered 0); and a master it hands over always has read_bit and
    write_bit set. *)
Theorem probe_registers_iff_success (pdev : platform_device) (w : world) :
  exists evs,
    trace (snd (w1_gpio_probe pdev w)) = trace w ++ evs
    /\ ((exists a, fst (w1_gpio_probe pdev w) = Done a)
        <-> (exists m, EvAddMaster m 0 ∈ evs))
    /\ (forall m rc, EvAddMaster m rc ∈ evs ->
          read_bit m = Some fn_w1_gpio_read_bit
          /\ write_bit m = Some fn_w1_gpio_write_bit
          /\ rc = add_master_rc w).
Proof.
  destruct (w1_gpio_probe pdev w) as [o w'] eqn:Hrun.
  match goal with |- ?G => set (claim := G) end.
  revert Hrun.
  unfold_probe. run.
  repeat (probe_case; simpl).
  all: intros [= <- <-]; subst claim; simpl.
  all: rewrite <- ?app_assoc; simpl.
  all: eexists; split; [first [symmetry; apply app_nil_r | reflexivity] |].
  all: split; [split |].
  all: try (intros [a Ha]; discriminate Ha).
  all: try (intros [m Hin]; exfalso; elem_cases Hin;
            injection Hin as _ Hz; rewrite <- Hz in *; discriminate).
  all: try (intros ? ? Hin; elem_cases Hin; injection Hin as -> ->; auto; fail).
  all: try (intros _; match goal with H : truthy _ = false |- _ =>
              apply truthy_false in H; rewrite H end;
            eexists; repeat (first [apply list_elem_of_here
                                   | apply list_elem_of_further]); fail).
  all: intros _; eauto.
Qed.

(** X8: where the pending duration of an attached device comes from.
    Under a device tree the probe works on freshly zeroed platform data
    (it uses two allocations), so the duration is 0 and a first
    set_pullup(0) does nothing.  Without a device tree it works on the
    platform data of the device (one allocation) and keeps the duration
    found there: if that is not 0, a first set_pullup(0) pulses the
    strong pull-up line for it.  Without a device tree and without a
    pull-down line the data line is always requested open-drain, whatever
    the properties of the node. *)
Theorem probe_initial_duration (pdev : platform_device) (w w' : world)
    (pdata : w1_gpio_platform_data) (master : w1_bus_master) :
  w1_gpio_probe pdev w = (Done (pdata, master), w') ->
  (of_have_populated_dt pdev = true ->
     strong_pullup_duration pdata = 0
     /\ allocs_left w = S (S (allocs_left w'))
     /\ w1_gpio_set_pullup pdata 0 w' = (Done (0, pdata), w'))
  /\ (of_have_populated_dt pdev = false ->
     exists pd0 d s,
       platform_data pdev = Some pd0
       /\ strong_pullup_duration pdata = strong_pullup_duration pd0
       /\ allocs_left w = S (allocs_left w')
       /\ gpiod pdata = DESC d /\ strong_pullup_gpiod pdata = DESC s
       /\ (gpios pdev !! 2%nat = None ->
             line_flags w' !! d = Some GPIOD_OUT_LOW_OPEN_DRAIN)
       /\ (strong_pullup_duration pd0 <> 0 ->
             exists w2,
               w1_gpio_set_pullup pdata 0 w'
                 = (Done (0, set_strong_pullup_duration 0 pdata), w2)
               /\ trace w2 = trace w' ++
                    [EvSetValue s true;
                     EvMsleep (strong_pullup_duration pd0);
                     EvSetValue s false])).
Proof.
  intros Hrun.
  destruct (probe_done_inv _ _ _ _ _ Hrun) as (d & s & _ & _ & Hd & Hs & _ & H2).
  assert (Hfacts :
    (of_have_populated_dt pdev = true ->
       strong_pullup_duration pdata = 0
       /\ allocs_left w = S (S (allocs_left w')))
    /\ (of_have_populated_dt pdev = false ->
       exists pd0, platform_data pdev = Some pd0
         /\ strong_pullup_duration pdata = strong_pullup_duration pd0
         /\ allocs_left w = S (allocs_left w'))).
  { clear H2 Hd Hs.
    match goal with |- ?G => set (claim := G) end.
    revert Hrun. unfold_probe. run.
    repeat (case_match; simplify_eq/=; try done).
    all: intros; simplify_eq/=; subst claim.
    all: split; intros HDT; try discriminate HDT; try congruence.
    all: try (split; [reflexivity | congruence]).
    all: eexists; split; [reflexivity |]; split; [reflexivity | congruence]. }
  destruct Hfacts as [Hdt Hboard]. split.
  - intros HDT. destruct (Hdt HDT) as [Hz Hal].
    split; [exact Hz |]. split; [exact Hal |].
    apply set_pullup_idle. exact Hz.
  - intros HDT. destruct (Hboard HDT) as (pd0 & Hpd & Hdur & Hal).
    exists pd0, d, s. repeat (split; [assumption |]). split.
    + intros Hp. rewrite Hp in H2. unfold external_open_drain in H2.
      rewrite HDT in H2. simpl in H2. tauto.
    + intros Hnz. eexists. split.
      * apply set_pullup_fire; [congruence | exact Hs].
      * simpl. rewrite <- !app_assoc. rewrite Hdur. reflexivity.
Qed.

Lemma probe_initial_duration_witness :
  exists pdata master w' w2,
    w1_gpio_probe board_stale_duration boot = (Done (pdata, master), w')
    /\ of_have_populated_dt board_stale_duration = false
    /\ strong_pullup_duration pdata = 150
    /\ line_flags w' !! 10%nat = Some GPIOD_OUT_LOW_OPEN_DRAIN
    /\ w1_gpio_set_pullup pdata 0 w'
         = (Done (0, set_strong_pullup_duration 0 pdata), w2)
    /\ trace w2 = trace w' ++
         [EvSetValue 11 true; EvMsleep 150; EvSetValue 11 false].
Proof.
  destruct (w1_gpio_probe board_stale_duration boot)
    as [[[pdata master] | rc] w'] eqn:Hrun;
    [| vm_compute in Hrun; discriminate Hrun].
  destruct (proj2 (probe_initial_duration _ _ _ _ _ Hrun) eq_refl)
    as (pd0 & d & s & Hpd & Hdur & _ & Hd & Hs & Hod & Hfire).
  injection Hpd as <-.
  assert (Hdv : d = 10%nat /\ s = 11%nat).
  { vm_compute in Hrun. injection Hrun as <- _ _.
    injection Hd as <-. injection Hs as <-. split; reflexivity. }
  destruct Hdv as [-> ->].
  destruct (Hfire ltac:(simpl; lia)) as (w2 & Hrun2 & Htr).
  exists pdata, master, w', w2.
  split; [reflexivity |]. split; [reflexivity |].
  split; [exact Hdur |]. split; [exact (Hod eq_refl) |].
  split; [exact Hrun2 | exact Htr].
Defined.

(** ** Arbitrary sequences of calls *)

Lemma sleeps_app (a b : list event) : sleeps (a ++ b) = (sleeps a + sleeps b)%nat.
Proof. unfold sleeps. rewrite List.filter_app, length_app. reflexivity. Qed.

(** What [call_event] and [drive_line] look at are the handles only. *)
Lemma call_event_handles (p q : w1_gpio_platform_data) (e : event) :
  gpiod q = gpiod p -> strong_pullup_gpiod q = strong_pullup_gpiod p ->
  pulldown_gpiod q = pulldown_gpiod p ->
  call_event q e -> call_event p e.
Proof.
  intros Hg Hs Hp. unfold call_event, drive_line. rewrite Hg, Hs, Hp. auto.
Qed.

Lemma drive_line_handles (p q : w1_gpio_platform_data) :
  gpiod q = gpiod p -> pulldown_gpiod q = pulldown_gpiod p ->
  drive_line q = drive_line p.
Proof. intros Hg Hp. unfold drive_line. rewrite Hg, Hp. reflexivity. Qed.

(** Everything one call can do. *)
Lemma invoke_step (c : w1_call) (pdata : w1_gpio_platform_data) (w : world) :
  exists r pdata' w' evs,
    invoke c pdata w = (Done (r, pdata'), w')
    /\ trace w' = trace w ++ evs
    /\ (gpiod pdata' = gpiod pdata
        /\ strong_pullup_gpiod pdata' = strong_pullup_gpiod pdata
        /\ pulldown_gpiod pdata' = pulldown_gpiod pdata)
    /\ (line_flags w' = line_flags w
        /\ allocs_left w' = allocs_left w
        /\ add_master_rc w' = add_master_rc w)
    /\ Forall (call_event pdata) evs
    /\ (sleeps evs + pending pdata' <= (if is_arm c then 1 else 0) + pending pdata)%nat
    /\ (sleeps evs <= if is_fire c then 1 else 0)%nat
    /\ (forall l, drive_line pdata <> DESC l ->
          strong_pullup_gpiod pdata <> DESC l ->
          line_value w' !! l = line_value w !! l)
    /\ (forall s, strong_pullup_gpiod pdata = DESC s ->
          drive_line pdata <> DESC s ->
          level w s = false -> level w' s = false).
Proof.
  destruct c as [| bit | delay]; simpl.
  - destruct (read_bit_world pdata w) as (r & Hrun & _).
    exists r, pdata, w, []. unfold bind. rewrite Hrun. simpl.
    rewrite app_nil_r. repeat split; auto; simpl; try lia.
  - unfold bind. rewrite write_bit_world.
    destruct (drive_line pdata) as [| rc | l] eqn:Hdl.
    + exists 0, pdata, w, []. rewrite app_nil_r. repeat split; auto; simpl; try lia.
    + exists 0, pdata, w, []. rewrite app_nil_r. repeat split; auto; simpl; try lia.
    + eexists 0, pdata, _, [_]. split; [reflexivity |]. simpl.
      repeat split; auto.
      * constructor; [| constructor]. left. rewrite Hdl.
        eexists _, _. split; reflexivity.
      * intros l' Hne _. apply lookup_insert_ne. congruence.
      * intros s _ Hne Hlow. unfold level in *. simpl.
        rewrite lookup_insert_ne by congruence. exact Hlow.
  - unfold w1_gpio_set_pullup, pending. run.
    destruct (truthy delay) eqn:Hdelay; simpl.
    + eexists 0, _, w, []. rewrite app_nil_r. simpl.
      repeat split; auto.
      cbn [strong_pullup_duration set_strong_pullup_duration].
      destruct (truthy (to_uint delay)), (truthy (strong_pullup_duration pdata)); lia.
    + destruct (truthy (strong_pullup_duration pdata)) eqn:Hpend; simpl.
      * destruct (strong_pullup_gpiod pdata) as [| rc | s] eqn:Hsp; simpl.
        -- eexists 0, _, _, [_]. split; [reflexivity |]. simpl.
           repeat split; auto.
           constructor; [| constructor]. right. right. right. reflexivity.
        -- eexists 0, _, _, [_]. split; [reflexivity |]. simpl.
           repeat split; auto.
           constructor; [| constructor]. right. right. left. eauto.
        -- eexists 0, _, _, [_; _; _]. split; [reflexivity |]. simpl.
           rewrite <- !app_assoc. simpl.
           repeat split; auto.
           ++ constructor; [| constructor; [| constructor; [| constructor]]].
              ** right. left. rewrite Hsp. eexists _, _. split; reflexivity.
              ** right. right. left. eauto.
              ** right. left. rewrite Hsp. eexists _, _. split; reflexivity.
           ++ intros l _ Hne. rewrite !lookup_insert_ne by congruence. reflexivity.
           ++ intros s' [= <-] _ _. unfold level. simpl.
              by rewrite lookup_insert_eq.
      * eexists 0, _, w, []. rewrite app_nil_r. simpl.
        repeat split; auto.
Qed.

(** Everything a sequence of calls can do. *)
Lemma run_calls_steps (cs : list w1_call) :
  forall (pdata : w1_gpio_platform_data) (w : world),
  exists rs pdata' w' evs,
    run_calls cs pdata w = (Done (rs, pdata'), w')
    /\ trace w' = trace w ++ evs
    /\ (gpiod pdata' = gpiod pdata
        /\ strong_pullup_gpiod pdata' = strong_pullup_gpiod pdata
        /\ pulldown_gpiod pdata' = pulldown_gpiod pdata)
    /\ (line_flags w' = line_flags w
        /\ allocs_left w' = allocs_left w
        /\ add_master_rc w' = add_master_rc w)
    /\ Forall (call_event pdata) evs
    /\ (sleeps evs + pending pdata' <= arms cs + pending pdata)%nat
    /\ (sleeps evs <= fires cs)%nat
    /\ (forall l, drive_line pdata <> DESC l ->
          strong_pullup_gpiod pdata <> DESC l ->
          line_value w' !! l = line_value w !! l)
    /\ (forall s, strong_pullup_gpiod pdata = DESC s ->
          drive_line pdata <> DESC s ->
          level w s = false -> level w' s = false).
Proof.
  induction cs as [| c cs IH]; intros pdata w.
  - exists [], pdata, w, []. simpl. rewrite app_nil_r.
    repeat split; auto.
  - destruct (invoke_step c pdata w)
      as (r & p1 & w1 & ev1 & Hrun1 & Htr1 & (Hg1 & Hs1 & Hp1)
          & (Hf1 & Ha1 & Hm1) & Hev1 & Hb1 & Hfi1 & Hl1 & Hlow1).
    destruct (IH p1 w1)
      as (rs & p2 & w2 & ev2 & Hrun2 & Htr2 & (Hg2 & Hs2 & Hp2)
          & (Hf2 & Ha2 & Hm2) & Hev2 & Hb2 & Hfi2 & Hl2 & Hlow2).
    pose proof (drive_line_handles pdata p1 Hg1 Hp1) as Hdl.
    exists (r :: rs), p2, w2, (ev1 ++ ev2).
    split.
    { simpl. unfold bind at 1. rewrite Hrun1. simpl.
      unfold bind at 1. rewrite Hrun2. reflexivity. }
    split; [rewrite Htr2, Htr1, app_assoc; reflexivity |].
    split; [repeat split; congruence |].
    split; [repeat split; congruence |].
    split.
    { apply Forall_app. split; [exact Hev1 |].
      eapply Forall_impl; [exact Hev2 |].
      intros e. apply call_event_handles; assumption. }
    split.
    { rewrite sleeps_app. unfold arms in *. simpl.
      destruct (is_arm c); simpl; lia. }
    split.
    { rewrite sleeps_app. unfold fires in *. simpl.
      destruct (is_fire c); simpl; lia. }
    split.
    { intros l Hne Hns. rewrite Hl2, Hl1; auto; congruence. }
    intros s Hs Hne Hlow.
    apply Hlow2; [congruence | congruence |].
    apply (Hlow1 s Hs Hne Hlow).
Qed.

(** X9: in any sequence of calls, from any state, the strong pull-up
    sleeps at most once per arming request (counting a duration already
    pending at the start as one), and only inside zero-delay requests: a
    duration is consumed by the first pulse or dropped, never replayed. *)
Theorem calls_pulse_budget (cs : list w1_call)
    (pdata : w1_gpio_platform_data) (w : world) :
  exists rs pdata' w' evs,
    run_calls cs pdata w = (Done (rs, pdata'), w')
    /\ trace w' = trace w ++ evs
    /\ (sleeps evs + pending pdata' <= arms cs + pending pdata)%nat
    /\ (sleeps evs <= fires cs)%nat.
Proof.
  destruct (run_calls_steps cs pdata w)
    as (rs & p' & w' & evs & Hrun & Htr & _ & _ & _ & Hb & Hf & _).
  exists rs, p', w', evs. auto.
Qed.

(** X10: no sequence of calls requests or reconfigures a line, allocates,
    or talks to the w1 core: its events are set-value events on the line
    write_bit drives or on the strong pull-up line, sleeps, and the
    "not available" log line; the handles stay as they are and every
    other line keeps its level.  In particular, with a pull-down line
    configured, a data line that is neither the pull-down nor the strong
    pull-up line is never driven. *)
Theorem calls_touch_only_their_lines (cs : list w1_call)
    (pdata : w1_gpio_platform_data) (w : world) :
  exists rs pdata' w' evs,
    run_calls cs pdata w = (Done (rs, pdata'), w')
    /\ trace w' = trace w ++ evs
    /\ Forall (call_event pdata) evs
    /\ (gpiod pdata' = gpiod pdata
        /\ strong_pullup_gpiod pdata' = strong_pullup_gpiod pdata
        /\ pulldown_gpiod pdata' = pulldown_gpiod pdata)
    /\ (line_flags w' = line_flags w
        /\ allocs_left w' = allocs_left w
        /\ add_master_rc w' = add_master_rc w)
    /\ (forall l, drive_line pdata <> DESC l ->
          strong_pullup_gpiod pdata <> DESC l ->
          line_value w' !! l = line_value w !! l)
    /\ (forall d p, pulldown_gpiod pdata = DESC p -> gpiod pdata = DESC d ->
          d <> p -> strong_pullup_gpiod pdata <> DESC d ->
          line_value w' !! d = line_value w !! d
          /\ forall v, EvSetValue d v ∉ evs).
Proof.
  destruct (run_calls_steps cs pdata w)
    as (rs & p' & w' & evs & Hrun & Htr & Hh & Hw & Hev & _ & _ & Hl & _).
  exists rs, p', w', evs. repeat (split; [assumption |]).
  intros d p Hp Hd Hdp Hsd.
  assert (Hdl : drive_line pdata = DESC p)
    by (unfold drive_line; rewrite Hp; reflexivity).
  split.
  - apply Hl; [rewrite Hdl; congruence | exact Hsd].
  - intros v Hin. rewrite Forall_forall in Hev.
    destruct (Hev _ Hin) as [(l & v' & Hl' & He) | [(l & v' & Hl' & He)
      | [(ms & He) | He]]]; try discriminate He.
    + injection He as <- <-. rewrite Hdl in Hl'. congruence.
    + injection He as <- <-. congruence.
Qed.

Lemma calls_touch_only_their_lines_witness :
  pulldown_gpiod pdata_3lines = DESC 12 /\ gpiod pdata_3lines = DESC 10
  /\ 10%nat <> 12%nat /\ strong_pullup_gpiod pdata_3lines <> DESC 10
  /\ exists rs pdata' w' evs,
       run_calls [call_write_bit 0; call_set_pullup 5; call_set_pullup 0;
                  call_write_bit 1] pdata_3lines boot
         = (Done (rs, pdata'), w')
       /\ trace w' = trace boot ++ evs
       /\ line_value w' !! 10%nat = line_value boot !! 10%nat
       /\ forall v, EvSetValue 10 v ∉ evs.
Proof.
  assert (Hne : 10%nat <> 12%nat) by discriminate.
  assert (Hs : strong_pullup_gpiod pdata_3lines <> DESC 10) by discriminate.
  split; [reflexivity |]. split; [reflexivity |].
  split; [exact Hne |]. split; [exact Hs |].
  destruct (calls_touch_only_their_lines
              [call_write_bit 0; call_set_pullup 5; call_set_pullup 0;
               call_write_bit 1] pdata_3lines boot)
    as (rs & p' & w' & evs & Hrun & Htr & _ & _ & _ & _ & Hdata).
  exists rs, p', w', evs.
  destruct (Hdata 10%nat 12%nat eq_refl eq_refl Hne Hs) as [Hlv Hev].
  repeat split; assumption.
Defined.

(** X11: if the strong pull-up line is not also the line write_bit
    drives and is inactive before a sequence of calls, it is inactive
    after it: every pulse that is started is also ended. *)
Theorem calls_leave_strong_pullup_inactive (cs : list w1_call)
    (pdata : w1_gpio_platform_data) (w : world) (s : nat) :
  strong_pullup_gpiod pdata = DESC s ->
  drive_line pdata <> DESC s ->
  level w s = false ->
  exists rs pdata' w',
    run_calls cs pdata w = (Done (rs, pdata'), w')
    /\ level w' s = false.
Proof.
  intros Hs Hne Hlow.
  destruct (run_calls_steps cs pdata w)
    as (rs & p' & w' & evs & Hrun & _ & _ & _ & _ & _ & _ & _ & Hinv).
  exists rs, p', w'. split; [exact Hrun |]. exact (Hinv s Hs Hne Hlow).
Qed.

Lemma calls_leave_strong_pullup_inactive_witness :
  strong_pullup_gpiod pdata_3lines = DESC 11
  /\ drive_line pdata_3lines <> DESC 11
  /\ level boot 11 = false
  /\ exists rs pdata' w',
       run_calls [call_set_pullup 30; call_write_bit 1; call_set_pullup 0;
                  call_read_bit] pdata_3lines boot
         = (Done (rs, pdata'), w')
       /\ level w' 11 = false.
Proof.
  assert (Hne : drive_line pdata_3lines <> DESC 11) by discriminate.
  split; [reflexivity |]. split; [exact Hne |]. split; [reflexivity |].
  exact (calls_leave_strong_pullup_inactive
           [call_set_pullup 30; call_write_bit 1; call_set_pullup 0;
            call_read_bit] pdata_3lines boot 11%nat eq_refl Hne eq_refl).
Defined.

(** X12: arming again before the pulse replaces the pending duration:
    after set_pullup(d1), set_pullup(d2) with both delays non-zero, a
    set_pullup(0) pulses once, for d2 (as the unsigned value it is held
    as), and nothing of d1 is left. *)
Theorem rearm_replaces_duration (pdata : w1_gpio_platform_data)
    (d1 d2 : Z) (s : nat) (w : world) :
  d1 <> 0 -> is_int d2 -> d2 <> 0 ->
  strong_pullup_gpiod pdata = DESC s ->
  exists w',
    run_calls [call_set_pullup d1; call_set_pullup d2; call_set_pullup 0] pdata w
      = (Done ([0; 0; 0], set_strong_pullup_duration 0 pdata), w')
    /\ trace w' = trace w ++
         [EvSetValue s true; EvMsleep (to_uint d2); EvSetValue s false]
    /\ level w' s = false.
Proof.
  intros H1 Hi2 H2 Hs.
  pose proof (to_uint_nonzero d2 Hi2 H2) as Hu.
  eexists. split.
  - unfold run_calls, invoke, bind.
    rewrite (set_pullup_arm _ _ _ H1). cbn [fst snd].
    rewrite (set_pullup_arm _ _ _ H2). cbn [fst snd].
    rewrite set_pullup_fire with (l := s); [| exact Hu | exact Hs].
    reflexivity.
  - simpl. rewrite <- !app_assoc. split; [reflexivity |].
    unfold level. simpl. by rewrite lookup_insert_eq.
Qed.

Lemma rearm_replaces_duration_witness :
  750 <> 0 /\ is_int 20 /\ 20 <> 0
  /\ strong_pullup_gpiod pdata_2lines = DESC 11
  /\ exists w',
       run_calls [call_set_pullup 750; call_set_pullup 20; call_set_pullup 0]
         pdata_2lines boot
         = (Done ([0; 0; 0], pdata_2lines), w')
       /\ trace w' = [EvSetValue 11 true; EvMsleep 20; EvSetValue 11 false].
Proof.
  assert (H1 : 750 <> 0) by lia.
  assert (Hi : is_int 20) by (unfold is_int, INT_MIN, INT_MAX; lia).
  assert (H2 : 20 <> 0) by lia.
  split; [exact H1 |]. split; [exact Hi |]. split; [exact H2 |].
  split; [reflexivity |].
  destruct (rearm_replaces_duration pdata_2lines 750 20 11%nat boot H1 Hi H2 eq_refl)
    as (w' & Hrun & Htr & _).
  exists w'. split; [exact Hrun | exact Htr].
Defined.

(** ** From attach to detach *)

(** After a probe that returns 0 the strong pull-up line is a line of its
    own, requested low, and the registration is the last thing done. *)
Lemma probe_done_lines (pdev : platform_device) (w w' : world)
    (pdata : w1_gpio_platform_data) (master : w1_bus_master) :
  w1_gpio_probe pdev w = (Done (pdata, master), w') ->
  exists s pre,
    strong_pullup_gpiod pdata = DESC s
    /\ drive_line pdata <> DESC s
    /\ level w' s = false
    /\ trace w' = trace w ++ pre ++ [EvAddMaster master 0].
Proof.
  intros H.
  match goal with |- ?G => set (claim := G) end.
  revert H. unfold_probe. run.
  repeat (case_match; simplify_eq/=; try done).
  all: intros; simplify_eq/=; free_lines; subst claim.
  all: repeat match goal with
       | H : truthy _ = false |- _ => apply truthy_false in H; rewrite H
       end.
  all: eexists _, [_; _; _]; split; [reflexivity |].
  all: unfold drive_line, level; simpl.
  all: split; [congruence |].
  all: split; [by simplify_map_eq |].
  all: rewrite <- !app_assoc; reflexivity.
Qed.

(** X13: the attached lifetime of a device.  After a probe that returns
    0 the strong pull-up line is inactive; it is inactive again after
    any sequence of calls, which also leaves the configuration of all
    lines as the probe set it; remove then returns 0, leaves the line
    inactive, and unregisters the very master the probe registered, as
    the last event of the device. *)
Theorem attached_lifetime (pdev : platform_device) (w w1 : world)
    (pdata : w1_gpio_platform_data) (master : w1_bus_master)
    (cs : list w1_call) :
  w1_gpio_probe pdev w = (Done (pdata, master), w1) ->
  exists s rs pdata2 w2 w3 pre evs,
    strong_pullup_gpiod pdata = DESC s
    /\ level w1 s = false
    /\ run_calls cs pdata w1 = (Done (rs, pdata2), w2)
    /\ level w2 s = false
    /\ line_flags w2 = line_flags w1
    /\ w1_gpio_remove master pdata2 w2 = (Done 0, w3)
    /\ level w3 s = false
    /\ trace w3 = trace w ++ pre ++ [EvAddMaster master 0] ++ evs ++
         [EvSetValue s false; EvRemoveMaster master].
Proof.
  intros Hprobe.
  destruct (probe_done_lines _ _ _ _ _ Hprobe) as (s & pre & Hs & Hne & Hlow & Htr1).
  destruct (run_calls_steps cs pdata w1)
    as (rs & p2 & w2 & evs & Hrun & Htr2 & (_ & Hs2 & _) & (Hf & _ & _)
        & _ & _ & _ & _ & Hinv).
  eexists s, rs, p2, w2, _, pre, evs.
  split; [exact Hs |]. split; [exact Hlow |]. split; [exact Hrun |].
  split; [exact (Hinv s Hs Hne Hlow) |]. split; [exact Hf |].
  split; [apply remove_world |].
  rewrite Hs2, Hs. split.
  - unfold level. simpl. by rewrite lookup_insert_eq.
  - simpl. rewrite Htr2, Htr1. rewrite <- !app_assoc. reflexivity.
Qed.

Lemma attached_lifetime_witness :
  exists pdata master w1 rs pdata2 w2 w3,
    w1_gpio_probe dev_3lines boot = (Done (pdata, master), w1)
    /\ run_calls [call_set_pullup 30; call_write_bit 0; call_set_pullup 0]
         pdata w1 = (Done (rs, pdata2), w2)
    /\ level w2 11 = false
    /\ w1_gpio_remove master pdata2 w2 = (Done 0, w3)
    /\ level w3 11 = false.
Proof.
  destruct (w1_gpio_probe dev_3lines boot)
    as [[[pdata master] | rc] w1] eqn:Hrun;
    [| vm_compute in Hrun; discriminate Hrun].
  destruct (attached_lifetime _ _ _ _ _
              [call_set_pullup 30; call_write_bit 0; call_set_pullup 0] Hrun)
    as (s & rs & p2 & w2 & w3 & pre & evs & Hs & _ & Hcalls & Hlow2 & _
        & Hrm & Hlow3 & _).
  assert (s = 11%nat) as ->.
  { vm_compute in Hrun. injection Hrun as <- _ _. injection Hs as <-. reflexivity. }
  exists pdata, master, w1, rs, p2, w2, w3.
  split; [reflexivity |]. repeat (split; [assumption |]). assumption.
Defined.
